(** * Order lifecycle of the krishoker_ponno backend

    A shallow embedding of [controllers/orderController.js], with the
    [requireRole] guard of [middlewares/auth.js] that [routes/orderRoutes.js]
    puts in front of its handlers, and the properties of the order subsystem:
    order creation, the status state machine, agent assignment and the
    role-scoped reads.

    Modelling choices.
    - Identifiers, roles and statuses are strings, as in the source; a
      nullable column or an optional field of a request is an [option].
    - JavaScript numbers (prices, quantities, commissions) are exact rationals
      [Qc]: the arithmetic of the handlers is kept as written; IEEE rounding
      and the DECIMAL(10,2) rounding of the columns are not modelled.
    - A handler is a computation in a state-and-exception monad over a
      [World]: the store, what the environment will do to the next store
      calls, and the console. [throw] is [throw new AppError(...)]; a property
      read on [null] throws [TypeError].
    - The relational store behind [supabaseAdmin] is a record of finite maps
      keyed by primary key. Every call to it may fail: a tape of booleans
      ([faults]) says, call after call, whether the store answers with an
      error. New keys come from a second tape ([uuids]). An [eq] on a column
      is a row filter, also on a column of the embedded product
      ([product.farmer_id]).
    - [created_at] and [updated_at] are row metadata kept by the store (the
      column defaults and the [update_orders_updated_at] trigger of the
      schema), not fields the handlers write.
    - Columns that no handler of the order subsystem reads or writes (names,
      phones, images, ...) are left out, and so are the schema validation of
      request bodies and the pagination echo of the list response. *)

From Stdlib Require Import QArith Qcanon.
From stdpp Require Import base option strings list numbers gmap sorting.

Local Open Scope string_scope.
Local Open Scope Z_scope.

(** ** Data model *)

Module User.
Record t := mk {
  role : string;
  district_id : option string;
  is_active : bool
}.
End User.

Module Product.
Record t := mk {
  farmer_id : string;
  district_id : string;
  price : Qc;
  available_quantity : Qc;
  is_active : bool
}.
End Product.

Module Order.
Record t := mk {
  product_id : string;
  customer_id : string;
  agent_id : option string;
  quantity : Qc;
  unit_price : Qc;
  total_price : Qc;
  commission : Qc;
  commission_rate : Qc;
  status : string;
  delivery_address : option string;
  customer_notes : option string;
  agent_notes : option string
}.
End Order.

(** A row of the [orders] table: the order and the timestamps the store keeps. *)
Record OrderRow := mkRow {
  order : Order.t;
  created_at : Z;
  updated_at : Z
}.

Record Store := mkStore {
  users : gmap string User.t;
  products : gmap string Product.t;
  orders : gmap string OrderRow
}.

(** [req.user], as the handlers use it. *)
Record ReqUser := mkReqUser {
  id : string;
  role : string
}.

(** ** Exceptions and the error handler *)

Inductive Exn :=
| AppError (message : string) (statusCode : nat) (code : string)
| TypeError.

(** The part of [errorHandler] an exception of a handler reaches: the HTTP
    status and the machine-readable code of the response. *)
Definition errorHandler (e : Exn) : nat * string :=
  match e with
  | AppError _ statusCode code => (statusCode, code)
  | TypeError => (500%nat, "INTERNAL_SERVER_ERROR")
  end.

(** The error kinds of the specification, and the kind of each code the
    order handlers raise. *)
Inductive ErrorKind :=
| PermissionDenied | NotFound | InsufficientStock | DistrictMismatch
| InvalidTransition | AccessDenied | StoreError.

Definition kindOfCode : list (string * ErrorKind) :=
  [("INSUFFICIENT_PERMISSIONS", PermissionDenied);
   ("INVALID_ROLE", PermissionDenied);
   ("ACCESS_DENIED", AccessDenied);
   ("PRODUCT_NOT_FOUND", NotFound);
   ("AGENT_NOT_FOUND", NotFound);
   ("ORDER_NOT_FOUND", NotFound);
   ("INSUFFICIENT_QUANTITY", InsufficientStock);
   ("AGENT_DISTRICT_MISMATCH", DistrictMismatch);
   ("INVALID_STATUS_TRANSITION", InvalidTransition);
   ("ORDER_CREATE_FAILED", StoreError);
   ("FETCH_FAILED", StoreError);
   ("UPDATE_FAILED", StoreError);
   ("ASSIGN_FAILED", StoreError)].

Definition kind (e : Exn) : option ErrorKind :=
  match e with
  | AppError _ _ code => snd <$> find (λ kc, String.eqb (fst kc) code) kindOfCode
  | TypeError => None
  end.

(** ** The world a handler runs in, and the handler monad *)

Record World := mkWorld {
  db : Store;
  faults : list bool;      (* does the next store call fail? *)
  uuids : list string;     (* the keys [uuid_generate_v4] hands out *)
  clock : Z;               (* [NOW()] of the store *)
  console : list string    (* what [console.error] printed *)
}.

Inductive Result (A : Type) :=
| Ok (a : A)
| Throw (e : Exn).
Arguments Ok {A} a.
Arguments Throw {A} e.

Definition M (A : Type) : Type := World → Result A * World.

Definition ret {A} (a : A) : M A := λ w, (Ok a, w).
Definition throw {A} (e : Exn) : M A := λ w, (Throw e, w).
Definition bind {A B} (m : M A) (k : A → M B) : M B :=
  λ w, match m w with
       | (Ok a, w') => k a w'
       | (Throw e, w') => (Throw e, w')
       end.

Notation "x <- m ;; k" := (bind m (λ x, k))
  (at level 100, m at next level, right associativity, only parsing).
Notation "m ;;; k" := (bind m (λ _, k))
  (at level 100, right associativity, only parsing).

Definition when (b : bool) (m : M unit) : M unit := if b then m else ret tt.

(** The next cell of the tape; the store never fails on an empty tape. *)
Definition nextFault : M bool := λ w,
  (Ok (hd false (faults w)),
   mkWorld (db w) (tl (faults w)) (uuids w) (clock w) (console w)).

Definition getDb : M Store := λ w, (Ok (db w), w).
Definition putDb (s : Store) : M unit := λ w,
  (Ok tt, mkWorld s (faults w) (uuids w) (clock w) (console w)).
Definition now : M Z := λ w,
  (Ok (clock w), mkWorld (db w) (faults w) (uuids w) (clock w + 1) (console w)).
Definition nextUuid : M (option string) := λ w,
  (Ok (head (uuids w)),
   mkWorld (db w) (faults w) (tl (uuids w)) (clock w) (console w)).
Definition console_error (msg : string) : M unit := λ w,
  (Ok tt, mkWorld (db w) (faults w) (uuids w) (clock w) (console w ++ [msg])).

(** ** The store client *)

(** What a store call resolves to: [{ data, error }]. *)
Record Reply (A : Type) := mkReply {
  data : option A;
  error : bool
}.
Arguments mkReply {A} data error.
Arguments data {A} r.
Arguments error {A} r.

Definition failed {A} : Reply A := mkReply None true.
Definition found {A} (a : A) : Reply A := mkReply (Some a) false.

(** [.single()]: exactly one row, or an error. With the primary key fixed by
    [eq('id', k)] the candidates are the row under [k], if any. *)
Definition single {A} (row : option A) (keep : A → bool) : Reply A :=
  match row with
  | Some a => if keep a then found a else failed
  | None => failed
  end.

(** [if (error || !data) throw e], then use [data]. *)
Definition orThrow {A} (r : Reply A) (e : Exn) : M A :=
  if error r then throw e
  else match data r with
       | Some a => ret a
       | None => throw e
       end.

(** [from('products').select(...).eq('id', k).eq('is_active', true).single()] *)
Definition selectActiveProduct (k : string) : M (Reply Product.t) :=
  f <- nextFault ;;
  s <- getDb ;;
  ret (if f : bool then failed else single (products s !! k) Product.is_active).

(** [from('users').select('*').eq('id', k).eq('role', 'agent')
     .eq('is_active', true).single()] *)
Definition selectActiveAgent (k : string) : M (Reply User.t) :=
  f <- nextFault ;;
  s <- getDb ;;
  ret (if f : bool then failed
       else single (users s !! k)
              (λ u, String.eqb (User.role u) "agent" && User.is_active u)).

(** An order with its embedded product, [select('*, product:products(...)')]. *)
Record JoinedOrder := mkJoined {
  joined_id : string;
  joined_row : OrderRow;
  product : option Product.t
}.

Definition join (s : Store) (k : string) (r : OrderRow) : JoinedOrder :=
  mkJoined k r (products s !! Order.product_id (order r)).

(** [from('orders').select('*, product:products(...)').eq('id', k).single()] *)
Definition selectOrder (k : string) : M (Reply JoinedOrder) :=
  f <- nextFault ;;
  s <- getDb ;;
  ret (if f : bool then failed
       else single (join s k <$> orders s !! k) (λ _, true)).

(** [from('orders').insert(orderData).select(...).single()]: the store draws
    the key and stamps the row; a key already taken violates the primary key,
    and a store that has no key to give fails. *)
Definition insertOrder (o : Order.t) : M (Reply JoinedOrder) :=
  f <- nextFault ;;
  u <- nextUuid ;;
  s <- getDb ;;
  match f, u with
  | false, Some k =>
      match orders s !! k with
      | Some _ => ret failed
      | None =>
          t <- now ;;
          let r := mkRow o t t in
          putDb (mkStore (users s) (products s) (<[k := r]> (orders s))) ;;;
          ret (found (join s k r))
      end
  | _, _ => ret failed
  end.

(** [from('products').update(patch).eq('id', k)]: only the error is read. *)
Definition updateProductRow (k : string) (patch : Product.t → Product.t) : M bool :=
  f <- nextFault ;;
  s <- getDb ;;
  if f : bool then ret true
  else
    putDb (mkStore (users s) (alter patch k (products s)) (orders s)) ;;;
    ret false.

(** [from('orders').update(patch).eq('id', k).select(...).single()]; the
    trigger of the table stamps [updated_at]. *)
Definition updateOrder (k : string) (patch : Order.t → Order.t) : M (Reply JoinedOrder) :=
  f <- nextFault ;;
  s <- getDb ;;
  if f : bool then ret failed
  else match orders s !! k with
       | None => ret failed
       | Some r =>
           t <- now ;;
           let r' := mkRow (patch (order r)) (created_at r) t in
           putDb (mkStore (users s) (products s) (<[k := r']> (orders s))) ;;;
           ret (found (join s k r'))
       end.

(** ** Request bodies *)

(** The body of [POST /orders] (schema [orderCreate]). *)
Module OrderCreate.
Record t := mk {
  product_id : string;
  quantity : Qc;
  agent_id : option string;
  delivery_address : option string;
  customer_notes : option string
}.
End OrderCreate.

(** The body of [PUT /orders/:id/status] (schema [orderUpdate]). *)
Module OrderUpdate.
Record t := mk {
  status : option string;
  agent_notes : option string
}.
End OrderUpdate.

(** A JavaScript string-or-absent value in a condition: [undefined], [null]
    and the empty string are falsy. [truthy v] is the value when it counts. *)
Definition truthy (v : option string) : option string :=
  match v with
  | Some s => if String.eqb s "" then None else Some s
  | None => None
  end.

(** [arr.includes(x)] on an array of strings. *)
Definition includes (arr : list string) (x : string) : bool :=
  existsb (String.eqb x) arr.

(** What [res.status(n).json({ ..., data })] sends. *)
Record Response (A : Type) := mkResponse {
  status : nat;
  payload : A
}.
Arguments mkResponse {A} status payload.
Arguments status {A} r.
Arguments payload {A} r.

(** ** middlewares/auth.js *)

(** [requireRole(allowedRoles)], for an authenticated request: the 403
    response it sends is the one the error handler builds from this error. *)
Definition requireRole (allowedRoles : list string) (user : ReqUser) : M unit :=
  when (negb (includes allowedRoles (role user)))
    (throw (AppError "Insufficient permissions" 403 "INSUFFICIENT_PERMISSIONS")).

Definition requireCustomerAccess : ReqUser → M unit := requireRole ["customer"; "admin"].

(** ** controllers/orderController.js *)

Definition COMMISSION_RATE : Qc := Qc_of_Z 5.

Definition createOrder (user : ReqUser) (body : OrderCreate.t)
  : M (Response (option JoinedOrder)) :=
  let product_id := OrderCreate.product_id body in
  let quantity := OrderCreate.quantity body in
  let agent_id := OrderCreate.agent_id body in
  (* Ensure only customers can create orders *)
  when (negb (String.eqb (role user) "customer") && negb (String.eqb (role user) "admin"))
    (throw (AppError "Only customers can create orders" 403 "INSUFFICIENT_PERMISSIONS")) ;;;
  (* Get product details *)
  r <- selectActiveProduct product_id ;;
  product <- orThrow r (AppError "Product not found or inactive" 404 "PRODUCT_NOT_FOUND") ;;
  (* Check if sufficient quantity is available *)
  when (bool_decide (Product.available_quantity product < quantity)%Qc)
    (throw (AppError "Insufficient product quantity available" 400 "INSUFFICIENT_QUANTITY")) ;;;
  (* Validate agent if provided *)
  agentData <-
    match truthy agent_id with
    | Some a =>
        r <- selectActiveAgent a ;;
        agent <- orThrow r (AppError "Agent not found or inactive" 404 "AGENT_NOT_FOUND") ;;
        when (negb (bool_decide (User.district_id agent = Some (Product.district_id product))))
          (throw (AppError "Agent must be from the same district as the product" 400
                    "AGENT_DISTRICT_MISMATCH")) ;;;
        ret (Some agent)
    | None => ret None
    end ;;
  (* Calculate order details *)
  let unit_price := Product.price product in
  let total_price := (unit_price * quantity)%Qc in
  let commission_rate := COMMISSION_RATE in
  let commission :=
    match agentData with
    | Some _ => ((total_price * commission_rate) / Qc_of_Z 100)%Qc
    | None => Qc_of_Z 0
    end in
  (* Create order *)
  let orderData :=
    Order.mk product_id (id user) (truthy agent_id) quantity unit_price total_price
      commission commission_rate "booked"
      (OrderCreate.delivery_address body) (OrderCreate.customer_notes body) None in
  r <- insertOrder orderData ;;
  when (error r) (throw (AppError "Failed to create order" 500 "ORDER_CREATE_FAILED")) ;;;
  (* Update product available quantity *)
  updateError <-
    updateProductRow product_id
      (λ p, Product.mk (Product.farmer_id p) (Product.district_id p) (Product.price p)
              (Product.available_quantity product - quantity)%Qc (Product.is_active p)) ;;
  when updateError (console_error "Failed to update product quantity:") ;;;
  ret (mkResponse 201 (data r)).

(** *** Reading lists of orders: the query builder *)

Module Query.
Record t := mk {
  filters : list (JoinedOrder → bool);
  ordering : option (string * bool);
  window : option (Z * Z)
}.
End Query.

(** [from('orders').select('*, product:products(...), ...')] *)
Definition fromOrders : Query.t := Query.mk [] None None.

(** The value of a column of an order row, embedded product included. *)
Definition column (name : string) (j : JoinedOrder) : option string :=
  let o := order (joined_row j) in
  if String.eqb name "customer_id" then Some (Order.customer_id o)
  else if String.eqb name "agent_id" then Order.agent_id o
  else if String.eqb name "product.farmer_id" then Product.farmer_id <$> product j
  else if String.eqb name "status" then Some (Order.status o)
  else None.

(** [query.eq(name, value)] *)
Definition query_eq (name value : string) (q : Query.t) : Query.t :=
  Query.mk (Query.filters q ++ [λ j, bool_decide (column name j = Some value)])
    (Query.ordering q) (Query.window q).

(** [query.order(field, { ascending })] *)
Definition query_order (field : string) (ascending : bool) (q : Query.t) : Query.t :=
  Query.mk (Query.filters q) (Some (field, ascending)) (Query.window q).

(** [query.range(from, to)] *)
Definition query_range (from to : Z) (q : Query.t) : Query.t :=
  Query.mk (Query.filters q) (Query.ordering q) (Some (from, to)).

(** The order of two rows on a sortable column. *)
Definition sortLe (field : string) (a b : JoinedOrder) : bool :=
  let ra := joined_row a in
  let rb := joined_row b in
  if String.eqb field "total_price" then
    bool_decide (Order.total_price (order ra) ≤ Order.total_price (order rb))%Qc
  else if String.eqb field "status" then
    String.leb (Order.status (order ra)) (Order.status (order rb))
  else if String.eqb field "updated_at" then bool_decide (updated_at ra ≤ updated_at rb)
  else bool_decide (created_at ra ≤ created_at rb).

Definition sortRel (field : string) (ascending : bool) (a b : JoinedOrder) : Prop :=
  if ascending then sortLe field a b else sortLe field b a.

#[local] Instance sortRel_dec field ascending : RelDecision (sortRel field ascending).
Proof. intros a b. unfold sortRel. destruct ascending; apply _. Defined.

Definition keptBy (q : Query.t) (j : JoinedOrder) : bool :=
  forallb (λ p, p j) (Query.filters q).

Definition sorted (q : Query.t) (rows : list JoinedOrder) : list JoinedOrder :=
  match Query.ordering q with
  | Some (field, ascending) => merge_sort (sortRel field ascending) rows
  | None => rows
  end.

(** Rows [from .. to] of the answer, counted from 0; the store refuses a
    negative offset. *)
Definition windowed (q : Query.t) (rows : list JoinedOrder) : Reply (list JoinedOrder) :=
  match Query.window q with
  | Some (from, to) =>
      if from <? 0 then failed
      else found (take (Z.to_nat (to - from + 1)) (drop (Z.to_nat from) rows))
  | None => found rows
  end.

Definition allOrders (s : Store) : list JoinedOrder :=
  (λ kr, join s kr.1 kr.2) <$> map_to_list (orders s).

#[local] Arguments windowed _ _ : simpl never.
#[local] Arguments sorted _ _ : simpl never.
#[local] Arguments keptBy _ _ : simpl never.
#[local] Arguments allOrders _ : simpl never.

(** [await query] *)
Definition runQuery (q : Query.t) : M (Reply (list JoinedOrder)) :=
  f <- nextFault ;;
  s <- getDb ;;
  ret (if f : bool then failed
       else windowed q (sorted q (List.filter (keptBy q) (allOrders s)))).

(** The query string of [GET /orders], numbers already parsed. *)
Module ListQuery.
Record t := mk {
  status : option string;
  page : option Z;
  limit : option Z;
  sort_by : option string;
  sort_order : option string
}.
End ListQuery.

Definition validSortFields : list string :=
  ["created_at"; "updated_at"; "total_price"; "status"].

(** [switch (user.role) { case 'customer': ... default: throw ... }] *)
Definition roleScope (user : ReqUser) (query : Query.t) : M Query.t :=
  if String.eqb (role user) "customer" then ret (query_eq "customer_id" (id user) query)
  else if String.eqb (role user) "agent" then ret (query_eq "agent_id" (id user) query)
  else if String.eqb (role user) "farmer" then
    (* Get orders for farmer's products *)
    ret (query_eq "product.farmer_id" (id user) query)
  else if String.eqb (role user) "admin" then
    (* Admin can see all orders *)
    ret query
  else throw (AppError "Invalid user role" 403 "INVALID_ROLE").

Definition getMyOrders (user : ReqUser) (params : ListQuery.t)
  : M (Response (option (list JoinedOrder))) :=
  let page := default 1 (ListQuery.page params) in
  let limit := default 20 (ListQuery.limit params) in
  let sort_by := default "created_at" (ListQuery.sort_by params) in
  let query := fromOrders in
  (* Apply role-based filtering *)
  query <- roleScope user query ;;
  (* Apply status filter *)
  let query :=
    match truthy (ListQuery.status params) with
    | Some status => query_eq "status" status query
    | None => query
    end in
  (* Apply sorting *)
  let sortField := if includes validSortFields sort_by then sort_by else "created_at" in
  let ascending := bool_decide (ListQuery.sort_order params = Some "asc") in
  let query := query_order sortField ascending query in
  (* Apply pagination *)
  let offset := (page - 1) * limit in
  let query := query_range offset (offset + limit - 1) query in
  r <- runQuery query ;;
  when (error r) (throw (AppError "Failed to fetch orders" 500 "FETCH_FAILED")) ;;;
  ret (mkResponse 200 (data r)).

(** *** Single order, status update, agent assignment *)

(** [user.role === 'admin' || order.customer_id === user.id ||
     order.agent_id === user.id || order.product.farmer_id === user.id],
    left to right; reading a column of a missing embedded product throws. *)
Definition hasAccess (user : ReqUser) (o : JoinedOrder) : M bool :=
  let row := order (joined_row o) in
  if String.eqb (role user) "admin" then ret true
  else if String.eqb (Order.customer_id row) (id user) then ret true
  else if bool_decide (Order.agent_id row = Some (id user)) then ret true
  else match product o with
       | Some p => ret (String.eqb (Product.farmer_id p) (id user))
       | None => throw TypeError
       end.

Definition getOrder (user : ReqUser) (k : string) : M (Response JoinedOrder) :=
  r <- selectOrder k ;;
  o <- orThrow r (AppError "Order not found" 404 "ORDER_NOT_FOUND") ;;
  (* Check permissions *)
  hasAccess <- hasAccess user o ;;
  when (negb hasAccess) (throw (AppError "Access denied" 403 "ACCESS_DENIED")) ;;;
  ret (mkResponse 200 o).

Definition validTransitions : list (string * list string) :=
  [("booked", ["confirmed"; "cancelled"]);
   ("confirmed", ["picked"; "cancelled"]);
   ("picked", ["delivered"; "cancelled"]);
   ("delivered", []);
   ("cancelled", [])].

(** [validTransitions[key]] *)
Fixpoint property (obj : list (string * list string)) (key : string) : option (list string) :=
  match obj with
  | [] => None
  | (k, v) :: rest => if String.eqb k key then Some v else property rest key
  end.

#[local] Arguments property _ _ : simpl never.

(** [`${status}`] *)
Definition interpolate (v : option string) : string := default "undefined" v.

(** [user.role === 'admin' ||
     (user.role === 'agent' && existingOrder.agent_id === user.id) ||
     (user.role === 'farmer' && existingOrder.product.farmer_id === user.id)] *)
Definition canUpdate (user : ReqUser) (existingOrder : JoinedOrder) : M bool :=
  let row := order (joined_row existingOrder) in
  if String.eqb (role user) "admin" then ret true
  else if String.eqb (role user) "agent"
          && bool_decide (Order.agent_id row = Some (id user)) then ret true
  else if String.eqb (role user) "farmer" then
    match product existingOrder with
    | Some p => ret (String.eqb (Product.farmer_id p) (id user))
    | None => throw TypeError
    end
  else ret false.

Definition updateOrderStatus (user : ReqUser) (k : string) (body : OrderUpdate.t)
  : M (Response (option JoinedOrder)) :=
  let status := OrderUpdate.status body in
  let agent_notes := OrderUpdate.agent_notes body in
  (* Get existing order *)
  r <- selectOrder k ;;
  existingOrder <- orThrow r (AppError "Order not found" 404 "ORDER_NOT_FOUND") ;;
  let row := order (joined_row existingOrder) in
  (* Check permissions *)
  canUpdate <- canUpdate user existingOrder ;;
  when (negb canUpdate)
    (throw (AppError "Insufficient permissions to update this order" 403
              "INSUFFICIENT_PERMISSIONS")) ;;;
  (* Validate status transitions *)
  let currentStatus := Order.status row in
  allowed <-
    match property validTransitions currentStatus with
    | Some targets => ret targets
    | None => throw TypeError
    end ;;
  when (negb (from_option (includes allowed) false status))
    (throw (AppError ("Cannot change status from " ++ currentStatus ++ " to "
                        ++ interpolate status) 400 "INVALID_STATUS_TRANSITION")) ;;;
  (* Update order *)
  let updateData (o : Order.t) :=
    Order.mk (Order.product_id o) (Order.customer_id o) (Order.agent_id o)
      (Order.quantity o) (Order.unit_price o) (Order.total_price o)
      (Order.commission o) (Order.commission_rate o)
      (default (Order.status o) status)
      (Order.delivery_address o) (Order.customer_notes o)
      (match truthy agent_notes with
       | Some notes => Some notes
       | None => Order.agent_notes o
       end) in
  r <- updateOrder k updateData ;;
  when (error r) (throw (AppError "Failed to update order" 500 "UPDATE_FAILED")) ;;;
  ret (mkResponse 200 (data r)).

Definition assignAgent (user : ReqUser) (k : string) (agent_id : string)
  : M (Response (option JoinedOrder)) :=
  (* Only customers and admins can assign agents *)
  when (negb (String.eqb (role user) "customer") && negb (String.eqb (role user) "admin"))
    (throw (AppError "Only customers and admins can assign agents" 403
              "INSUFFICIENT_PERMISSIONS")) ;;;
  (* Get existing order *)
  r <- selectOrder k ;;
  existingOrder <- orThrow r (AppError "Order not found" 404 "ORDER_NOT_FOUND") ;;
  let row := order (joined_row existingOrder) in
  (* Check if customer owns this order (if not admin) *)
  when (String.eqb (role user) "customer"
        && negb (String.eqb (Order.customer_id row) (id user)))
    (throw (AppError "You can only assign agents to your own orders" 403 "ACCESS_DENIED")) ;;;
  (* Validate agent *)
  r <- selectActiveAgent agent_id ;;
  agent <- orThrow r (AppError "Agent not found or inactive" 404 "AGENT_NOT_FOUND") ;;
  (* Check if agent is in the same district as the product *)
  district <-
    match product existingOrder with
    | Some p => ret (Product.district_id p)
    | None => throw TypeError
    end ;;
  when (negb (bool_decide (User.district_id agent = Some district)))
    (throw (AppError "Agent must be from the same district as the product" 400
              "AGENT_DISTRICT_MISMATCH")) ;;;
  (* Calculate commission *)
  let commission_rate := COMMISSION_RATE in
  let commission := ((Order.total_price row * commission_rate) / Qc_of_Z 100)%Qc in
  (* Update order *)
  r <- updateOrder k
         (λ o, Order.mk (Order.product_id o) (Order.customer_id o) (Some agent_id)
                 (Order.quantity o) (Order.unit_price o) (Order.total_price o)
                 commission commission_rate (Order.status o)
                 (Order.delivery_address o) (Order.customer_notes o)
                 (Order.agent_notes o)) ;;
  when (error r) (throw (AppError "Failed to assign agent" 500 "ASSIGN_FAILED")) ;;;
  ret (mkResponse 200 (data r)).

(** ** routes/orderRoutes.js: the role guard in front of each handler
    (the schema validation of the bodies is not part of the model) *)

Definition postOrder (user : ReqUser) (body : OrderCreate.t) :=
  requireCustomerAccess user ;;; createOrder user body.

Definition putOrderStatus (user : ReqUser) (k : string) (body : OrderUpdate.t) :=
  requireRole ["agent"; "admin"; "farmer"] user ;;; updateOrderStatus user k body.

Definition putAssignAgent (user : ReqUser) (k : string) (agent_id : string) :=
  requireRole ["customer"; "admin"] user ;;; assignAgent user k agent_id.

(** * Vocabulary of the properties *)

(** A run [r] from world [w] is rejected with HTTP status [st], code [c] and
    error kind [k], after [n] calls to the store, and has written nothing. *)
Definition rejected {A} (r : Result A * World) (w : World) (n : nat)
    (st : nat) (c : string) (k : ErrorKind) : Prop :=
  ∃ e, r.1 = Throw e ∧ errorHandler e = (st, c) ∧ kind e = Some k
       ∧ db r.2 = db w ∧ console r.2 = console w
       ∧ faults r.2 = Nat.iter n tl (faults w).

(** The store answers the next [n] calls. *)
Definition answers (n : nat) (w : World) : Prop :=
  ∀ i, (i < n)%nat → nth i (faults w) false = false.

(** ** Order creation *)

(** Who may place an order. *)
Definition mayCreate (user : ReqUser) : Prop :=
  role user = "customer" ∨ role user = "admin".

(** The order [createOrder] sends to the store, given the product it read. *)
Definition orderData (user : ReqUser) (body : OrderCreate.t) (P : Product.t) : Order.t :=
  let total_price := (Product.price P * OrderCreate.quantity body)%Qc in
  Order.mk (OrderCreate.product_id body) (id user) (truthy (OrderCreate.agent_id body))
    (OrderCreate.quantity body) (Product.price P) total_price
    (match truthy (OrderCreate.agent_id body) with
     | Some _ => ((total_price * COMMISSION_RATE) / Qc_of_Z 100)%Qc
     | None => Qc_of_Z 0
     end)
    COMMISSION_RATE "booked"
    (OrderCreate.delivery_address body) (OrderCreate.customer_notes body) None.

(** The patch of its second write. *)
Definition decrement (P : Product.t) (q : Qc) (p : Product.t) : Product.t :=
  Product.mk (Product.farmer_id p) (Product.district_id p) (Product.price p)
    (Product.available_quantity P - q)%Qc (Product.is_active p).

(** Which store call of a successful [createOrder] is the stock update:
    product, (agent,) insert, update. *)
Definition updateCall (body : OrderCreate.t) : nat :=
  match truthy (OrderCreate.agent_id body) with
  | Some _ => 3
  | None => 2
  end.


(** ** Status updates *)

(** The statuses of the schema's CHECK constraint. *)
Definition statuses : list string :=
  ["booked"; "confirmed"; "picked"; "delivered"; "cancelled"].

(** The targets [validTransitions] lists for a status. *)
Definition adjacency (s : string) : list string :=
  default [] (property validTransitions s).

(** Who may move an order: an admin, its agent, the farmer of its product. *)
Definition mayUpdate (user : ReqUser) (o : Order.t) (p : option Product.t) : Prop :=
  role user = "admin"
  ∨ (role user = "agent" ∧ Order.agent_id o = Some (id user))
  ∨ (role user = "farmer" ∧ Product.farmer_id <$> p = Some (id user)).

(** The patch [updateOrderStatus] sends. *)
Definition statusPatch (body : OrderUpdate.t) (o : Order.t) : Order.t :=
  Order.mk (Order.product_id o) (Order.customer_id o) (Order.agent_id o)
    (Order.quantity o) (Order.unit_price o) (Order.total_price o)
    (Order.commission o) (Order.commission_rate o)
    (default (Order.status o) (OrderUpdate.status body))
    (Order.delivery_address o) (Order.customer_notes o)
    (match truthy (OrderUpdate.agent_notes body) with
     | Some notes => Some notes
     | None => Order.agent_notes o
     end).

(** ** Reading one order *)

(** Who may read an order: an admin and the parties to it. *)
Definition mayRead (user : ReqUser) (o : Order.t) (p : option Product.t) : Prop :=
  role user = "admin"
  ∨ Order.customer_id o = id user
  ∨ Order.agent_id o = Some (id user)
  ∨ Product.farmer_id <$> p = Some (id user).

(** ** Agent assignment *)

(** Who may assign an agent: an admin, and the customer of the order. *)
Definition mayAssign (user : ReqUser) (o : Order.t) : Prop :=
  role user = "admin" ∨ (role user = "customer" ∧ Order.customer_id o = id user).

(** An active user of role agent. *)
Definition activeAgent (s : Store) (a : string) (A : User.t) : Prop :=
  users s !! a = Some A ∧ User.role A = "agent" ∧ User.is_active A = true.

(** The patch [assignAgent] sends. *)
Definition agentPatch (a : string) (total_price : Qc) (o : Order.t) : Order.t :=
  Order.mk (Order.product_id o) (Order.customer_id o) (Some a)
    (Order.quantity o) (Order.unit_price o) (Order.total_price o)
    ((total_price * COMMISSION_RATE) / Qc_of_Z 100)%Qc COMMISSION_RATE (Order.status o)
    (Order.delivery_address o) (Order.customer_notes o) (Order.agent_notes o).

(** ** Listing orders *)

Definition roles : list string := ["customer"; "agent"; "farmer"; "admin"].

(** The rows a caller is entitled to see. *)
Definition visible (user : ReqUser) (j : JoinedOrder) : Prop :=
  let o := order (joined_row j) in
  (role user = "customer" ∧ Order.customer_id o = id user)
  ∨ (role user = "agent" ∧ Order.agent_id o = Some (id user))
  ∨ (role user = "farmer" ∧ Product.farmer_id <$> product j = Some (id user))
  ∨ role user = "admin".

#[local] Instance visible_dec user j : Decision (visible user j).
Proof. unfold visible. apply _. Defined.

(** The rows the status filter of the query string keeps. *)
Definition wanted (params : ListQuery.t) (j : JoinedOrder) : Prop :=
  ∀ st, truthy (ListQuery.status params) = Some st →
        Order.status (order (joined_row j)) = st.

(** [GET /orders] without a query string. *)
Definition noParams : ListQuery.t := ListQuery.mk None None None None None.

(** * The scenario of the specification, run on the model

    Product P (price 50, stock 10, district d1, farmer F); agents A and A2 in
    d1, agent B in d2; customer C. *)

Definition D1 : string := "d1".
Definition D2 : string := "d2".

Definition productP : Product.t := Product.mk "F" D1 (Qc_of_Z 50) (Qc_of_Z 10) true.

Definition store0 : Store :=
  mkStore
    (<["A" := User.mk "agent" (Some D1) true]>
       (<["A2" := User.mk "agent" (Some D1) true]>
          (<["B" := User.mk "agent" (Some D2) true]>
             (<["C" := User.mk "customer" (Some D1) true]>
                (<["F" := User.mk "farmer" (Some D1) true]> ∅)))))
    (<["P" := productP]> ∅)
    ∅.

Definition world0 : World := mkWorld store0 [] ["o1"; "o2"] 1000 [].

Definition customerC : ReqUser := mkReqUser "C" "customer".
Definition strangerS : ReqUser := mkReqUser "S" "customer".
Definition agentA : ReqUser := mkReqUser "A" "agent".
Definition farmerF : ReqUser := mkReqUser "F" "farmer".
Definition adminZ : ReqUser := mkReqUser "Z" "admin".

Definition order3 : OrderCreate.t := OrderCreate.mk "P" (Qc_of_Z 3) None None None.
Definition order11 : OrderCreate.t := OrderCreate.mk "P" (Qc_of_Z 11) None None None.
Definition orderMissing : OrderCreate.t := OrderCreate.mk "X" (Qc_of_Z 3) None None None.
Definition order3nobody : OrderCreate.t :=
  OrderCreate.mk "P" (Qc_of_Z 3) (Some "N") None None.
Definition order3B : OrderCreate.t := OrderCreate.mk "P" (Qc_of_Z 3) (Some "B") None None.

Definition toConfirmed : OrderUpdate.t := OrderUpdate.mk (Some "confirmed") None.
Definition toDelivered : OrderUpdate.t := OrderUpdate.mk (Some "delivered") None.
Definition toPickedNoted : OrderUpdate.t :=
  OrderUpdate.mk (Some "picked") (Some "left at the farm").

(** C orders 3 of P: the world after, and the row it left. *)
Definition world1 : World := Eval vm_compute in (createOrder customerC order3 world0).2.
Definition row1 : OrderRow := mkRow (orderData customerC order3 productP) 1000 1000.


(** An admin placing the same order. *)
Definition world1Z : World := Eval vm_compute in (createOrder adminZ order3 world0).2.
Definition row1Z : OrderRow := mkRow (orderData adminZ order3 productP) 1000 1000.

(** C assigns agent A, *)
Definition world2 : World := Eval vm_compute in (assignAgent customerC "o1" "A" world1).2.
Definition row2 : OrderRow :=
  Eval vm_compute in default row1 (orders (db world2) !! "o1").
Definition productP7 : Product.t :=
  Eval vm_compute in default productP (products (db world2) !! "P").

(** who confirms the order, *)
Definition world3 : World :=
  Eval vm_compute in (updateOrderStatus agentA "o1" toConfirmed world2).2.
Definition row3 : OrderRow :=
  Eval vm_compute in default row1 (orders (db world3) !! "o1").

(** picks it with a note, *)
Definition world4 : World :=
  Eval vm_compute in (updateOrderStatus agentA "o1" toPickedNoted world3).2.
Definition row4 : OrderRow :=
  Eval vm_compute in default row1 (orders (db world4) !! "o1").

(** and delivers it; then C assigns agent A2. *)
Definition world5 : World :=
  Eval vm_compute in (updateOrderStatus agentA "o1" toDelivered world4).2.
Definition world6 : World :=
  Eval vm_compute in (assignAgent customerC "o1" "A2" world5).2.

(** A store where customer C has 21 orders of P, placed one after another,
    and the page [GET /orders] answers C there. *)
Definition keyOf (n : nat) : string := String (Ascii.ascii_of_nat (97 + n)) "".
Definition orderOf (n : nat) : OrderRow :=
  mkRow (Order.mk "P" "C" None (Qc_of_Z 1) (Qc_of_Z 50) (Qc_of_Z 50) (Qc_of_Z 0)
           (Qc_of_Z 5) "booked" None None None)
    (Z.of_nat n) (Z.of_nat n).
Definition store21 : Store :=
  mkStore (users store0) (products store0)
    (list_to_map ((λ n, (keyOf n, orderOf n)) <$> seq 0 21)).
Definition world21 : World := mkWorld store21 [] [] 1000 [].
Definition page21 : list JoinedOrder :=
  Eval vm_compute in
    match (getMyOrders customerC noParams world21).1 with
    | Ok resp => default [] (payload resp)
    | Throw _ => []
    end.

(** * More of the code *)

(** ** controllers/orderController.js: the agents of a district *)

(** The rows [.eq('role', 'agent').eq('district_id', d).eq('is_active', true)]
    keeps. *)
Definition isAgentOf (d : string) (ku : string * User.t) : bool :=
  String.eqb (User.role ku.2) "agent"
  && bool_decide (User.district_id ku.2 = Some d)
  && User.is_active ku.2.

(** [.order('name')]; [nameOf] is the [name] column of [users], by key. *)
Definition byName (nameOf : string → string) (a b : string * User.t) : Prop :=
  String.leb (nameOf a.1) (nameOf b.1) = true.

#[local] Instance byName_dec nameOf : RelDecision (byName nameOf).
Proof. intros a b. unfold byName. apply _. Defined.

(** [from('users').select('id, name, phone, image_url, district_id')
     .eq('role', 'agent').eq('district_id', d).eq('is_active', true).order('name')] *)
Definition selectAgents (nameOf : string → string) (d : string)
  : M (Reply (list (string * User.t))) :=
  f <- nextFault ;;
  s <- getDb ;;
  ret (if f : bool then failed
       else found (merge_sort (byName nameOf)
                     (List.filter (isAgentOf d) (map_to_list (users s))))).

Definition getAvailableAgents (nameOf : string → string) (district_id : option string)
  : M (Response (option (list (string * User.t)))) :=
  match truthy district_id with
  | None => throw (AppError "District ID is required" 400 "DISTRICT_REQUIRED")
  | Some d =>
      r <- selectAgents nameOf d ;;
      when (error r) (throw (AppError "Failed to fetch agents" 500 "FETCH_FAILED")) ;;;
      ret (mkResponse 200 (data r))
  end.

(** ** middlewares/auth.js: authentication *)

(** [from('users').select('*').eq('id', k).single()] *)
Definition selectUser (k : string) : M (Reply User.t) :=
  f <- nextFault ;;
  s <- getDb ;;
  ret (if f : bool then failed else single (users s !! k) (λ _, true)).

(** [authenticateUser], for the [Authorization] header of the request.
    [getUser] is the identity provider, [supabase.auth.getUser(token)]: the
    id of the user a valid token belongs to. The responses the middleware
    sends itself (401, 404, 403) are the ones the error handler builds from
    these errors; on success [req.user] is the row of the user. *)
Definition authenticateUser (getUser : string → option string)
    (authorization : option string) : M ReqUser :=
  match authorization with
  | Some authHeader =>
      if String.prefix "Bearer " authHeader then
        (* Remove 'Bearer ' prefix *)
        let token := String.substring 7 (String.length authHeader - 7) authHeader in
        (* Verify the JWT token with Supabase *)
        match getUser token with
        | Some uid =>
            (* Get user details from our users table *)
            r <- selectUser uid ;;
            userData <- orThrow r (AppError "User not found" 404 "USER_NOT_FOUND") ;;
            when (negb (User.is_active userData))
              (throw (AppError "User account is inactive" 403 "ACCOUNT_INACTIVE")) ;;;
            ret (mkReqUser uid (User.role userData))
        | None => throw (AppError "Invalid or expired token" 401 "INVALID_TOKEN")
        end
      else throw (AppError "Access token required" 401 "MISSING_TOKEN")
  | None => throw (AppError "Access token required" 401 "MISSING_TOKEN")
  end.

(** [app.use('/api/v1/orders', authenticateUser, orderRoutes)], for
    [POST /orders]. *)
Definition ordersPost (getUser : string → option string) (authorization : option string)
    (body : OrderCreate.t) : M (Response (option JoinedOrder)) :=
  user <- authenticateUser getUser authorization ;;
  postOrder user body.

(** ** middlewares/errorHandler.js: the whole handler *)

(** What the handler reads of an error object. *)
Record ErrorObject := mkError {
  err_name : string;
  err_code : option string;
  err_statusCode : option nat
}.

(** The object a handler throws: an [AppError] is an [Error] with a status
    and a code, a [TypeError] has neither. *)
Definition thrown (e : Exn) : ErrorObject :=
  match e with
  | AppError _ statusCode code => mkError "Error" (Some code) (Some statusCode)
  | TypeError => mkError "TypeError" None None
  end.

(** The status and code of the response of [errorHandler]. *)
Definition errorResponse (error : ErrorObject) : nat * string :=
  let postgres :=
    (* Supabase errors *)
    match truthy (err_code error) with
    | Some code =>
        if String.eqb code "23505" then Some (409%nat, "DUPLICATE_ENTRY")
        else if String.eqb code "23503" then Some (400%nat, "INVALID_REFERENCE")
        else if String.eqb code "23514" then Some (400%nat, "CONSTRAINT_VIOLATION")
        else None
    | None => None
    end in
  match postgres with
  | Some response => response
  | None =>
      (* Validation errors *)
      if String.eqb (err_name error) "ValidationError" then (400%nat, "VALIDATION_ERROR")
      (* JWT errors *)
      else if String.eqb (err_name error) "JsonWebTokenError" then (401%nat, "INVALID_TOKEN")
      else if String.eqb (err_name error) "TokenExpiredError" then (401%nat, "TOKEN_EXPIRED")
      (* Multer errors (file upload) *)
      else if bool_decide (err_code error = Some "LIMIT_FILE_SIZE") then
        (413%nat, "FILE_TOO_LARGE")
      else if bool_decide (err_code error = Some "LIMIT_UNEXPECTED_FILE") then
        (400%nat, "UNEXPECTED_FILE")
      else
        match err_statusCode error with
        | Some (S n) =>
            (* Custom application errors *)
            (S n, default "APPLICATION_ERROR" (truthy (err_code error)))
        | _ =>
            (* Default server error *)
            (500%nat, "INTERNAL_SERVER_ERROR")
        end
  end.

(** ** controllers/productController.js: soft delete *)

(** [from('products').select('*').eq('id', k).single()] *)
Definition selectProduct (k : string) : M (Reply Product.t) :=
  f <- nextFault ;;
  s <- getDb ;;
  ret (if f : bool then failed else single (products s !! k) (λ _, true)).

(** The patch [{ is_active: false }]. *)
Definition deactivated (p : Product.t) : Product.t :=
  Product.mk (Product.farmer_id p) (Product.district_id p) (Product.price p)
    (Product.available_quantity p) false.

(** [deleteProduct] of the product controller (the image of the product is
    not part of the model). *)
Definition deleteProduct (user : ReqUser) (k : string) : M (Response unit) :=
  (* Get existing product *)
  r <- selectProduct k ;;
  existingProduct <- orThrow r (AppError "Product not found" 404 "PRODUCT_NOT_FOUND") ;;
  (* Check permissions *)
  when (negb (String.eqb (role user) "admin")
        && negb (String.eqb (Product.farmer_id existingProduct) (id user)))
    (throw (AppError "You can only delete your own products" 403
              "INSUFFICIENT_PERMISSIONS")) ;;;
  (* Soft delete (set is_active to false) *)
  deleteError <- updateProductRow k deactivated ;;
  when deleteError (throw (AppError "Failed to delete product" 500 "DELETE_FAILED")) ;;;
  ret (mkResponse 200 tt).

(** ** controllers/userController.js: deactivating one's account *)

(** [from('users').update(patch).eq('id', k)]: only the error is read. *)
Definition updateUserRow (k : string) (patch : User.t → User.t) : M bool :=
  f <- nextFault ;;
  s <- getDb ;;
  if f : bool then ret true
  else
    putDb (mkStore (alter patch k (users s)) (products s) (orders s)) ;;;
    ret false.

Definition inactive (u : User.t) : User.t :=
  User.mk (User.role u) (User.district_id u) false.

Definition deactivateAccount (user : ReqUser) : M (Response unit) :=
  (* Only allow users to deactivate their own account (not admins) *)
  when (String.eqb (role user) "admin")
    (throw (AppError "Admin accounts cannot be deactivated" 403
              "ADMIN_DEACTIVATION_DENIED")) ;;;
  deactivationError <- updateUserRow (id user) inactive ;;
  when deactivationError
    (throw (AppError "Failed to deactivate account" 500 "DEACTIVATION_FAILED")) ;;;
  ret (mkResponse 200 tt).

(** ** controllers/adminController.js: deleting an order *)

(** [from('orders').delete().eq('id', k)]: only the error is read. *)
Definition deleteOrderRow (k : string) : M bool :=
  f <- nextFault ;;
  s <- getDb ;;
  if f : bool then ret true
  else
    putDb (mkStore (users s) (products s) (delete k (orders s))) ;;;
    ret false.

Definition deleteOrder (k : string) : M (Response unit) :=
  deleteError <- deleteOrderRow k ;;
  when deleteError (throw (AppError "Failed to delete order" 500 "DELETE_FAILED")) ;;;
  ret (mkResponse 200 tt).

(** [router.use(requireAdmin)] in front of [DELETE /admin/orders/:id]. *)
Definition adminDeleteOrder (user : ReqUser) (k : string) : M (Response unit) :=
  requireRole ["admin"] user ;;; deleteOrder k.

(** * Tactics *)

(** Unfold a handler down to the store. *)
Ltac run :=
  unfold createOrder, updateOrderStatus, assignAgent, getOrder, getMyOrders,
    selectActiveProduct, selectActiveAgent, selectOrder, insertOrder, updateProductRow,
    updateOrder, runQuery, orThrow, when, bind, ret, throw, nextFault, nextUuid,
    getDb, putDb, now, console_error, single, failed, found in *;
  cbn [data error fst snd db faults uuids clock console] in *.

Ltac rejected_now := eexists; repeat split; reflexivity.

(** * Vocabulary of the further properties *)

(** A run [r] from world [w] is refused with HTTP status [st] and code [c]
    after [n] calls to the store, and has written nothing. *)
Definition refused {A} (r : Result A * World) (w : World) (n : nat)
    (st : nat) (c : string) : Prop :=
  ∃ e, r.1 = Throw e ∧ errorHandler e = (st, c)
       ∧ db r.2 = db w ∧ console r.2 = console w
       ∧ faults r.2 = Nat.iter n tl (faults w).

(** ** Requests and histories *)

(** The requests of the order routes, of the soft delete of a product and of
    the deactivation of an account, as they reach their handlers. *)
Inductive Request :=
| Create (user : ReqUser) (body : OrderCreate.t)
| ListOrders (user : ReqUser) (params : ListQuery.t)
| Get (user : ReqUser) (k : string)
| Update (user : ReqUser) (k : string) (body : OrderUpdate.t)
| Assign (user : ReqUser) (k : string) (agent_id : string)
| Agents (nameOf : string → string) (district_id : option string)
| DeleteProduct (user : ReqUser) (k : string)
| Deactivate (user : ReqUser).

(** Forget the response. *)
Definition void {A} (m : M A) : M unit := m ;;; ret tt.

Definition serve (q : Request) : M unit :=
  match q with
  | Create user body => void (createOrder user body)
  | ListOrders user params => void (getMyOrders user params)
  | Get user k => void (getOrder user k)
  | Update user k body => void (updateOrderStatus user k body)
  | Assign user k agent_id => void (assignAgent user k agent_id)
  | Agents nameOf district_id => void (getAvailableAgents nameOf district_id)
  | DeleteProduct user k => void (deleteProduct user k)
  | Deactivate user => void (deactivateAccount user)
  end.

(** The world after a history of requests, served one after another, each
    answered or refused. *)
Fixpoint after (history : list Request) (w : World) : World :=
  match history with
  | [] => w
  | q :: rest => after rest (serve q w).2
  end.

Definition served (q : Request) (w : World) : bool :=
  match (serve q w).1 with
  | Ok _ => true
  | Throw _ => false
  end.

(** Is [q] a status update of order [k]? *)
Definition movesOrder (k : string) (q : Request) : bool :=
  match q with
  | Update _ k' _ => String.eqb k' k
  | _ => false
  end.



Definition statusOf (s : Store) (k : string) : option string :=
  Order.status ∘ order <$> orders s !! k.

(** ** Invariants of the store *)






(** No stock is negative. *)
Definition stockOk (s : Store) : Prop :=
  ∀ k P, products s !! k = Some P → (0 ≤ Product.available_quantity P)%Qc.


(** ** The whole list behind the pages of [getMyOrders] *)

Definition sortFieldOf (params : ListQuery.t) : string :=
  let sort_by := default "created_at" (ListQuery.sort_by params) in
  if includes validSortFields sort_by then sort_by else "created_at".

Definition ascendingOf (params : ListQuery.t) : bool :=
  bool_decide (ListQuery.sort_order params = Some "asc").




(** ** Requests of the scenario *)


Ltac run' :=
  unfold getAvailableAgents, selectAgents, authenticateUser, selectUser, deleteProduct,
    selectProduct, deactivateAccount, updateUserRow, deleteOrder, deleteOrderRow,
    adminDeleteOrder, postOrder, putOrderStatus, putAssignAgent, ordersPost,
    requireCustomerAccess, requireRole, void in *;
  run.

Ltac crush H :=
  repeat (first [progress (cbn in H) | progress simplify_eq | case_match]).



(** ** What a served request does to the store *)

Inductive Step (s s' : Store) : Prop :=
| step_none :
    s' = s → Step s s'
| step_create (user : ReqUser) (body : OrderCreate.t) (P : Product.t) (k : string) (t : Z) :
    products s !! OrderCreate.product_id body = Some P →
    (OrderCreate.quantity body ≤ Product.available_quantity P)%Qc →
    (∀ a, truthy (OrderCreate.agent_id body) = Some a →
       ∃ A, users s !! a = Some A ∧ User.role A = "agent"
            ∧ User.district_id A = Some (Product.district_id P)) →
    orders s !! k = None →
    users s' = users s →
    orders s' = <[k := mkRow (orderData user body P) t t]> (orders s) →
    (products s' = products s
     ∨ products s' = alter (decrement P (OrderCreate.quantity body))
                       (OrderCreate.product_id body) (products s)) →
    Step s s'
| step_update (k : string) (r : OrderRow) (body : OrderUpdate.t) (target : string) (t : Z) :
    orders s !! k = Some r →
    OrderUpdate.status body = Some target →
    In target (adjacency (Order.status (order r))) →
    users s' = users s →
    products s' = products s →
    orders s' = <[k := mkRow (statusPatch body (order r)) (created_at r) t]> (orders s) →
    Step s s'
| step_assign (k a : string) (r : OrderRow) (P : Product.t) (A : User.t) (t : Z) :
    orders s !! k = Some r →
    products s !! Order.product_id (order r) = Some P →
    activeAgent s a A →
    User.district_id A = Some (Product.district_id P) →
    users s' = users s →
    products s' = products s →
    orders s' = <[k := mkRow (agentPatch a (Order.total_price (order r)) (order r))
                         (created_at r) t]> (orders s) →
    Step s s'
| step_delete_product (k : string) :
    users s' = users s →
    products s' = alter deactivated k (products s) →
    orders s' = orders s →
    Step s s'
| step_deactivate (k : string) :
    users s' = alter inactive k (users s) →
    products s' = products s →
    orders s' = orders s →
    Step s s'.








Definition agentA2 : ReqUser := mkReqUser "A2" "agent".
Definition toCancelled : OrderUpdate.t := OrderUpdate.mk (Some "cancelled") None.


(** ** Comparing two runs *)

(** Two runs end in the same world with the same answer: the same response,
    or an error of the same HTTP status and code. *)
Definition sameAnswer {A} (r r' : Result A * World) : Prop :=
  r.2 = r'.2
  ∧ match r.1, r'.1 with
    | Ok x, Ok y => x = y
    | Throw e, Throw e' => errorHandler e = errorHandler e'
    | _, _ => False
    end.

(** ** The scenario, continued *)

(** The tokens of customer C and of agent A. *)
Definition getUser0 (token : string) : option string :=
  if String.eqb token "tokenC" then Some "C"
  else if String.eqb token "tokenA" then Some "A"
  else None.

Definition nameOf0 (k : string) : string := k.

(** Agent A has deactivated the account, after order o1 was booked. *)
Definition world1_A_left : World := Eval vm_compute in (deactivateAccount agentA world1).2.

(** Farmer F has deleted product P, after order o1 was booked. *)
Definition world1_P_deleted : World :=
  Eval vm_compute in (deleteProduct farmerF "P" world1).2.




(** Order o1 is delivered, then everybody tries to move it on. *)
Definition afterDelivery : list Request :=
  [Update agentA2 "o1" toCancelled; Update adminZ "o1" toConfirmed;
   Assign customerC "o1" "A"; DeleteProduct farmerF "P"; Deactivate agentA2;
   Update farmerF "o1" toCancelled].

(** * Properties *)

Lemma answers_hd n w : answers (S n) w → hd false (faults w) = false.
Proof.
  intros H. specialize (H 0%nat ltac:(lia)). by destruct (faults w).
Qed.

Lemma hd_iter_tl i (l : list bool) : hd false (Nat.iter i tl l) = nth i l false.
Proof.
  revert l. induction i as [|i IH]; intros l.
  - by destruct l.
  - rewrite Nat.iter_succ_r, IH. by destruct l, i.
Qed.

Lemma answers_nth n w i :
  answers n w → (i < n)%nat → hd false (Nat.iter i tl (faults w)) = false.
Proof. intros H Hi. rewrite hd_iter_tl. by apply H. Qed.

Lemma mayCreate_test user :
  negb (String.eqb (role user) "customer") && negb (String.eqb (role user) "admin") = false
  ↔ mayCreate user.
Proof.
  unfold mayCreate.
  destruct (String.eqb_spec (role user) "customer"), (String.eqb_spec (role user) "admin");
    cbn; intuition congruence.
Qed.

(** *** Order creation *)

Lemma createOrder_ok user body w resp w' :
  createOrder user body w = (Ok resp, w') →
  ∃ P k,
    mayCreate user
    ∧ products (db w) !! OrderCreate.product_id body = Some P
    ∧ Product.is_active P = true
    ∧ ¬ (Product.available_quantity P < OrderCreate.quantity body)%Qc
    ∧ head (uuids w) = Some k
    ∧ orders (db w) !! k = None
    ∧ resp = mkResponse 201
               (Some (join (db w) k (mkRow (orderData user body P) (clock w) (clock w))))
    ∧ orders (db w') = <[k := mkRow (orderData user body P) (clock w) (clock w)]> (orders (db w))
    ∧ users (db w') = users (db w)
    ∧ if nth (updateCall body) (faults w) false
      then products (db w') = products (db w)
           ∧ console w' = (console w ++ ["Failed to update product quantity:"])%list
      else products (db w')
           = alter (decrement P (OrderCreate.quantity body)) (OrderCreate.product_id body)
               (products (db w))
           ∧ console w' = console w.
Proof.
  intros Hrun. run.
  destruct (negb _ && negb _) eqn:Hrole; cbn in Hrun; [done|].
  apply mayCreate_test in Hrole.
  destruct (hd false (faults w)) eqn:Hf0; cbn in Hrun; [done|].
  destruct (products (db w) !! _) as [P|] eqn:EP; cbn in Hrun; [|done].
  destruct (Product.is_active P) eqn:Eact; cbn in Hrun; [|done].
  destruct (bool_decide _) eqn:Hlt; cbn in Hrun; [done|].
  apply bool_decide_eq_false in Hlt.
  exists P. unfold updateCall, orderData.
  destruct (truthy (OrderCreate.agent_id body)) as [a|] eqn:Ha; cbn in Hrun.
  - destruct (hd false (tl (faults w))) eqn:Hf1; cbn in Hrun; [done|].
    destruct (users (db w) !! a) as [A|] eqn:EA; cbn in Hrun; [|done].
    destruct (_ && _) eqn:EAok; cbn in Hrun; [|done].
    destruct (bool_decide _) eqn:Hd; cbn in Hrun; [|done].
    destruct (hd false (tl (tl (faults w)))) eqn:Hf2; cbn in Hrun; [done|].
    destruct (head (uuids w)) as [k|] eqn:Hk; cbn in Hrun; [|done].
    destruct (orders (db w) !! k) eqn:Ek; cbn in Hrun; [done|].
    rewrite <- (hd_iter_tl 3).
    destruct (hd false (tl (tl (tl (faults w))))) eqn:Hf3; cbn in Hrun;
      simplify_eq; exists k; cbn; rewrite ?Ha, ?Hf3; by repeat split.
  - destruct (hd false (tl (faults w))) eqn:Hf1; cbn in Hrun; [done|].
    destruct (head (uuids w)) as [k|] eqn:Hk; cbn in Hrun; [|done].
    destruct (orders (db w) !! k) eqn:Ek; cbn in Hrun; [done|].
    rewrite <- (hd_iter_tl 2).
    destruct (hd false (tl (tl (faults w)))) eqn:Hf2; cbn in Hrun;
      simplify_eq; exists k; cbn; rewrite ?Ha, ?Hf2; by repeat split.
Qed.

Lemma createOrder_denied user body w :
  ¬ mayCreate user →
  rejected (createOrder user body w) w 0 403 "INSUFFICIENT_PERMISSIONS" PermissionDenied.
Proof.
  intros H. apply (not_iff_compat (mayCreate_test user)) in H.
  apply not_false_is_true in H.
  run. rewrite H. rejected_now.
Qed.

Lemma createOrder_no_product user body w :
  mayCreate user →
  (¬ ∃ P, products (db w) !! OrderCreate.product_id body = Some P
          ∧ Product.is_active P = true) →
  rejected (createOrder user body w) w 1 404 "PRODUCT_NOT_FOUND" NotFound.
Proof.
  intros H%mayCreate_test HP.
  run. rewrite H. cbn.
  destruct (hd false (faults w)); cbn; [rejected_now|].
  destruct (products (db w) !! _) as [P|] eqn:EP; cbn; [|rejected_now].
  destruct (Product.is_active P) eqn:Eact; cbn; [|rejected_now].
  destruct HP; eauto.
Qed.

Lemma createOrder_read_fault user body w :
  mayCreate user → hd false (faults w) = true →
  rejected (createOrder user body w) w 1 404 "PRODUCT_NOT_FOUND" NotFound.
Proof.
  intros H%mayCreate_test Hf. run. rewrite H, Hf. rejected_now.
Qed.

Lemma createOrder_no_stock user body w P :
  mayCreate user → answers 1 w →
  products (db w) !! OrderCreate.product_id body = Some P →
  Product.is_active P = true →
  (Product.available_quantity P < OrderCreate.quantity body)%Qc →
  rejected (createOrder user body w) w 1 400 "INSUFFICIENT_QUANTITY" InsufficientStock.
Proof.
  intros H%mayCreate_test Hf%answers_hd EP Eact Hlt.
  run. rewrite H, Hf, EP, Eact. cbn.
  rewrite bool_decide_eq_true_2 by done. rejected_now.
Qed.

Lemma createOrder_no_agent user body w P a :
  mayCreate user → answers 1 w →
  products (db w) !! OrderCreate.product_id body = Some P →
  Product.is_active P = true →
  ¬ (Product.available_quantity P < OrderCreate.quantity body)%Qc →
  truthy (OrderCreate.agent_id body) = Some a →
  (¬ ∃ A, users (db w) !! a = Some A ∧ User.role A = "agent" ∧ User.is_active A = true) →
  rejected (createOrder user body w) w 2 404 "AGENT_NOT_FOUND" NotFound.
Proof.
  intros H%mayCreate_test Hf%answers_hd EP Eact Hlt Ha HA.
  run. rewrite H, Hf, EP, Eact. cbn.
  rewrite bool_decide_eq_false_2 by done. cbn. rewrite Ha. cbn.
  destruct (hd false (tl (faults w))); cbn; [rejected_now|].
  destruct (users (db w) !! a) as [A|] eqn:EA; cbn; [|rejected_now].
  destruct (String.eqb_spec (User.role A) "agent"); cbn; [|rejected_now].
  destruct (User.is_active A) eqn:EAact; cbn; [|rejected_now].
  destruct HA; eauto.
Qed.

Lemma createOrder_other_district user body w P a A :
  mayCreate user → answers 2 w →
  products (db w) !! OrderCreate.product_id body = Some P →
  Product.is_active P = true →
  ¬ (Product.available_quantity P < OrderCreate.quantity body)%Qc →
  truthy (OrderCreate.agent_id body) = Some a →
  users (db w) !! a = Some A → User.role A = "agent" → User.is_active A = true →
  User.district_id A ≠ Some (Product.district_id P) →
  rejected (createOrder user body w) w 2 400 "AGENT_DISTRICT_MISMATCH" DistrictMismatch.
Proof.
  intros H%mayCreate_test Hf EP Eact Hlt Ha EA Hr EAact Hd.
  pose proof (answers_nth 2 w 0 Hf ltac:(lia)) as Hf0.
  pose proof (answers_nth 2 w 1 Hf ltac:(lia)) as Hf1. cbn in Hf0, Hf1.
  run. rewrite H, Hf0, EP, Eact. cbn.
  rewrite bool_decide_eq_false_2 by done. cbn. rewrite Ha. cbn.
  rewrite Hf1, EA, Hr, EAact. cbn.
  rewrite bool_decide_eq_false_2 by done. rejected_now.
Qed.

Lemma createOrder_passed user body w P :
  mayCreate user → answers 1 w →
  products (db w) !! OrderCreate.product_id body = Some P →
  Product.is_active P = true →
  (OrderCreate.quantity body ≤ Product.available_quantity P)%Qc →
  truthy (OrderCreate.agent_id body) = None →
  ∀ e w', createOrder user body w = (Throw e, w') →
    errorHandler e = (500%nat, "ORDER_CREATE_FAILED").
Proof.
  intros H%mayCreate_test Hf%answers_hd EP Eact Hle%Qcle_not_lt Ha e w' Hrun.
  run. rewrite H, Hf, EP, Eact in Hrun. cbn in Hrun.
  rewrite bool_decide_eq_false_2 in Hrun by done. cbn in Hrun.
  rewrite Ha in Hrun. cbn in Hrun.
  destruct (hd false (tl (faults w))); cbn in Hrun; [by simplify_eq|].
  destruct (head (uuids w)) as [k|]; cbn in Hrun; [|by simplify_eq].
  destruct (orders (db w) !! k); cbn in Hrun; [by simplify_eq|].
  destruct (hd false (tl (tl (faults w)))); cbn in Hrun; simplify_eq.
Qed.

(** A request that passes every check is served when the store answers and
    hands out a fresh key. *)
Lemma createOrder_succeeds user body w P k :
  mayCreate user →
  answers 4 w →
  products (db w) !! OrderCreate.product_id body = Some P →
  Product.is_active P = true →
  (OrderCreate.quantity body ≤ Product.available_quantity P)%Qc →
  (∀ a, truthy (OrderCreate.agent_id body) = Some a →
     ∃ A, users (db w) !! a = Some A ∧ User.role A = "agent" ∧ User.is_active A = true
          ∧ User.district_id A = Some (Product.district_id P)) →
  head (uuids w) = Some k →
  orders (db w) !! k = None →
  ∃ w', createOrder user body w
        = (Ok (mkResponse 201
                 (Some (join (db w) k (mkRow (orderData user body P) (clock w) (clock w))))),
           w').
Proof.
  intros H%mayCreate_test Hf EP Eact Hle%Qcle_not_lt Hagent Hk Ek.
  pose proof (answers_nth 4 w 0 Hf ltac:(lia)) as Hf0.
  pose proof (answers_nth 4 w 1 Hf ltac:(lia)) as Hf1.
  pose proof (answers_nth 4 w 2 Hf ltac:(lia)) as Hf2.
  pose proof (answers_nth 4 w 3 Hf ltac:(lia)) as Hf3. cbn in Hf0, Hf1, Hf2, Hf3.
  run. rewrite H, Hf0, EP, Eact. cbn.
  rewrite bool_decide_eq_false_2 by done. cbn. unfold orderData.
  destruct (truthy (OrderCreate.agent_id body)) as [a|] eqn:Ha; cbn.
  - destruct (Hagent a eq_refl) as (A & EA & HA1 & HA2 & Hd).
    rewrite Hf1, EA, HA1, HA2. cbn. rewrite bool_decide_eq_true_2 by done. cbn.
    rewrite Hf2, Hk, Ek. cbn. rewrite Hf3. cbn. eauto.
  - rewrite Hf1, Hk, Ek. cbn. rewrite Hf2. cbn. eauto.
Qed.

(** C5. [createOrder] validates in a fixed order: the caller's role
    (else 403 INSUFFICIENT_PERMISSIONS, PermissionDenied, before any store
    call); then the product, which must exist and be active (else 404
    PRODUCT_NOT_FOUND, NotFound, after one store call); then the stock, which
    must cover the quantity (else 400 INSUFFICIENT_QUANTITY,
    InsufficientStock); then, only when an agent id is given, the agent, who
    must be an active user of role agent (else 404 AGENT_NOT_FOUND, NotFound,
    after two store calls) of the product's district (else 400
    AGENT_DISTRICT_MISMATCH, DistrictMismatch).  Each rejection holds whatever
    the later checks would say, and writes nothing; without an agent id no
    agent check is made: the only failure left is the store's on insert. *)
Theorem createOrder_validation_order (user : ReqUser) (body : OrderCreate.t) (w : World) :
  let pid := OrderCreate.product_id body in
  let q := OrderCreate.quantity body in
  let agent := truthy (OrderCreate.agent_id body) in
  let result := createOrder user body w in
  (¬ mayCreate user →
   rejected result w 0 403 "INSUFFICIENT_PERMISSIONS" PermissionDenied)
  ∧ (mayCreate user →
     ((¬ ∃ P, products (db w) !! pid = Some P ∧ Product.is_active P = true) →
      rejected result w 1 404 "PRODUCT_NOT_FOUND" NotFound)
     ∧ ∀ P, answers 1 w → products (db w) !! pid = Some P →
         Product.is_active P = true →
         ((Product.available_quantity P < q)%Qc →
          rejected result w 1 400 "INSUFFICIENT_QUANTITY" InsufficientStock)
         ∧ ((q ≤ Product.available_quantity P)%Qc →
            (∀ a, agent = Some a →
               ((¬ ∃ A, users (db w) !! a = Some A ∧ User.role A = "agent"
                        ∧ User.is_active A = true) →
                rejected result w 2 404 "AGENT_NOT_FOUND" NotFound)
               ∧ (∀ A, answers 2 w → users (db w) !! a = Some A →
                    User.role A = "agent" → User.is_active A = true →
                    User.district_id A ≠ Some (Product.district_id P) →
                    rejected result w 2 400 "AGENT_DISTRICT_MISMATCH" DistrictMismatch))
            ∧ (agent = None →
               ∀ e w', result = (Throw e, w') →
                 errorHandler e = (500%nat, "ORDER_CREATE_FAILED")))).
Proof.
  intros pid q agent result. split; [apply createOrder_denied|].
  intros Hrole. split; [by apply createOrder_no_product|].
  intros P Hf EP Eact. split; [by apply createOrder_no_stock|].
  intros Hle. split.
  - intros a Ha. split.
    + apply (createOrder_no_agent _ _ _ P); auto using Qcle_not_lt.
    + intros A Hf2 EA HA1 HA2 Hd.
      apply (createOrder_other_district _ _ _ P a A); auto using Qcle_not_lt.
  - intros Ha. by apply (createOrder_passed _ _ _ P).
Qed.

Lemma createOrder_validation_order_witness :
  rejected (createOrder farmerF order3 world0) world0 0 403
    "INSUFFICIENT_PERMISSIONS" PermissionDenied
  ∧ rejected (createOrder customerC orderMissing world0) world0 1 404
      "PRODUCT_NOT_FOUND" NotFound
  ∧ rejected (createOrder customerC order11 world0) world0 1 400
      "INSUFFICIENT_QUANTITY" InsufficientStock
  ∧ rejected (createOrder customerC order3nobody world0) world0 2 404
      "AGENT_NOT_FOUND" NotFound
  ∧ rejected (createOrder customerC order3B world0) world0 2 400
      "AGENT_DISTRICT_MISMATCH" DistrictMismatch.
Proof.
  assert (mayCreate customerC) as HC by (by left).
  assert (∀ n, answers n world0) as Hans by (by intros n [|[|i]] _).
  assert (products (db world0) !! "P" = Some productP) as HP by reflexivity.
  repeat split.
  - destruct (createOrder_validation_order farmerF order3 world0) as [H _].
    apply H. by intros [|].
  - destruct (createOrder_validation_order customerC orderMissing world0) as [_ H].
    destruct (H HC) as [H' _]. apply H'. by intros (P & HP' & _).
  - destruct (createOrder_validation_order customerC order11 world0) as [_ H].
    destruct (H HC) as [_ H']. destruct (H' productP (Hans 1%nat) HP eq_refl) as [H'' _].
    by apply H''.
  - destruct (createOrder_validation_order customerC order3nobody world0) as [_ H].
    destruct (H HC) as [_ H']. destruct (H' productP (Hans 1%nat) HP eq_refl) as [_ H''].
    destruct H'' as [H'' _]; [by vm_compute|].
    destruct (H'' "N" eq_refl) as [H3 _]. apply H3. by intros (A & HA & _).
  - destruct (createOrder_validation_order customerC order3B world0) as [_ H].
    destruct (H HC) as [_ H']. destruct (H' productP (Hans 1%nat) HP eq_refl) as [_ H''].
    destruct H'' as [H'' _]; [by vm_compute|].
    destruct (H'' "B" eq_refl) as [_ H3].
    by apply (H3 (User.mk "agent" (Some D2) true)).
Defined.

(** C6. A request for more than the product's stock never creates an order:
    [createOrder] fails and leaves the store (and the console) as they were;
    for a caller allowed to order an active product the store returns, the
    failure is 400 INSUFFICIENT_QUANTITY (InsufficientStock), raised after the
    single read of the product. *)
Theorem createOrder_insufficient_stock (user : ReqUser) (body : OrderCreate.t)
    (w : World) (P : Product.t) :
  products (db w) !! OrderCreate.product_id body = Some P →
  (Product.available_quantity P < OrderCreate.quantity body)%Qc →
  (∃ e, (createOrder user body w).1 = Throw e)
  ∧ db (createOrder user body w).2 = db w
  ∧ console (createOrder user body w).2 = console w
  ∧ (mayCreate user → Product.is_active P = true → answers 1 w →
     rejected (createOrder user body w) w 1 400 "INSUFFICIENT_QUANTITY" InsufficientStock).
Proof.
  intros EP Hlt.
  assert (∃ n st c k, rejected (createOrder user body w) w n st c k) as Hrej.
  { destruct (decide (mayCreate user)) as [Hrole|Hrole];
      [|by do 4 eexists; apply createOrder_denied].
    destruct (hd false (faults w)) eqn:Hf;
      [by do 4 eexists; apply createOrder_read_fault|].
    destruct (Product.is_active P) eqn:Eact.
    - do 4 eexists. apply (createOrder_no_stock _ _ _ P); try done.
      intros [|i] Hi; [|lia]. by destruct (faults w).
    - do 4 eexists. apply createOrder_no_product; [done|].
      intros (P' & EP' & Eact'). congruence. }
  destruct Hrej as (n & st & c & k & e & He & _ & _ & Hdb & Hcon & _).
  repeat split; eauto. intros. by apply (createOrder_no_stock _ _ _ P).
Qed.

Lemma createOrder_insufficient_stock_witness :
  (∃ e, (createOrder customerC order11 world0).1 = Throw e)
  ∧ db (createOrder customerC order11 world0).2 = db world0
  ∧ console (createOrder customerC order11 world0).2 = console world0
  ∧ rejected (createOrder customerC order11 world0) world0 1 400
      "INSUFFICIENT_QUANTITY" InsufficientStock.
Proof.
  destruct (createOrder_insufficient_stock customerC order11 world0 productP)
    as (H1 & H2 & H3 & H4); [reflexivity | reflexivity |].
  repeat split; try done.
  apply H4; [by left | reflexivity |]. by intros [|i] _.
Defined.



(** C10. The order a successful [createOrder] persists belongs to the caller:
    its [customer_id] is [req.user.id], for a customer and for an admin alike.
    The body carries no customer, and it is the only order the call adds. *)
Theorem createOrder_customer_is_caller (user : ReqUser) (body : OrderCreate.t)
    (w w' : World) (resp : Response (option JoinedOrder)) :
  createOrder user body w = (Ok resp, w') →
  ∃ k row,
    orders (db w) !! k = None
    ∧ orders (db w') !! k = Some row
    ∧ payload resp = Some (join (db w) k row)
    ∧ Order.customer_id (order row) = id user
    ∧ (∀ j, j ≠ k → orders (db w') !! j = orders (db w) !! j).
Proof.
  intros Hrun.
  destruct (createOrder_ok _ _ _ _ _ Hrun)
    as (P & k & _ & _ & _ & _ & _ & Ek & -> & Ho & _).
  exists k, (mkRow (orderData user body P) (clock w) (clock w)).
  rewrite Ho. repeat split; try done.
  - apply lookup_insert_eq.
  - intros j Hj. by rewrite lookup_insert_ne.
Qed.

Lemma createOrder_customer_is_caller_witness :
  role adminZ = "admin"
  ∧ orders (db world1Z) !! "o1" = Some row1Z
  ∧ Order.customer_id (order row1Z) = "Z".
Proof.
  destruct (createOrder_customer_is_caller adminZ order3 world0 world1Z
              (mkResponse 201 (Some (join store0 "o1" row1Z))))
    as (k & row & _ & Hrow & Hresp & Hcust & _).
  { by vm_compute. }
  cbn in Hresp. injection Hresp as -> ->.
  by repeat split.
Defined.

(** *** Status updates *)

Lemma canUpdate_true user k r s w :
  mayUpdate user (order r) (products s !! Order.product_id (order r)) →
  canUpdate user (join s k r) w = (Ok true, w).
Proof.
  unfold mayUpdate, canUpdate, join, ret, throw. cbn.
  destruct (String.eqb_spec (role user) "admin"); [done|].
  destruct (String.eqb_spec (role user) "agent"); cbn.
  - intros [?|[[_ Ha]|[? _]]]; try congruence. by rewrite bool_decide_eq_true_2.
  - destruct (String.eqb_spec (role user) "farmer").
    + intros [?|[[? _]|[_ Hp]]]; try congruence.
      destruct (products s !! _) as [P|]; [|done]. cbn in Hp.
      injection Hp as ->. by rewrite String.eqb_refl.
    + intros [?|[[? _]|[? _]]]; congruence.
Qed.

Lemma canUpdate_false user k r s w P :
  products s !! Order.product_id (order r) = Some P →
  ¬ mayUpdate user (order r) (Some P) →
  canUpdate user (join s k r) w = (Ok false, w).
Proof.
  unfold mayUpdate, canUpdate, join, ret, throw. cbn. intros -> Hno.
  destruct (String.eqb_spec (role user) "admin"); [tauto|].
  destruct (String.eqb_spec (role user) "agent"); cbn.
  - case_bool_decide; [tauto|].
    destruct (String.eqb_spec (role user) "farmer"); [congruence|done].
  - destruct (String.eqb_spec (role user) "farmer"); [|done].
    destruct (String.eqb_spec (Product.farmer_id P) (id user)); [|done].
    destruct Hno. right. right. cbn. split; [done | by f_equal].
Qed.

Lemma canUpdate_inv user k r s w w' :
  canUpdate user (join s k r) w = (Ok true, w') →
  mayUpdate user (order r) (products s !! Order.product_id (order r)) ∧ w' = w.
Proof.
  unfold mayUpdate, canUpdate, join, ret, throw. cbn.
  destruct (String.eqb_spec (role user) "admin"); [intros; simplify_eq; auto|].
  destruct (String.eqb_spec (role user) "agent"); cbn.
  - case_bool_decide; [intros; simplify_eq; auto|].
    destruct (String.eqb_spec (role user) "farmer"); [congruence|done].
  - destruct (String.eqb_spec (role user) "farmer"); [|done].
    destruct (products s !! _) as [P|]; [|done].
    destruct (String.eqb_spec (Product.farmer_id P) (id user)); [|done].
    intros; simplify_eq. split; [|done]. right. right. cbn. split; [done | by f_equal].
Qed.

Lemma includes_In (l : list string) (x : string) : includes l x = true ↔ In x l.
Proof.
  unfold includes. rewrite existsb_exists. split.
  - intros (y & Hy & ->%String.eqb_eq). done.
  - intros Hx. exists x. by rewrite String.eqb_refl.
Qed.

Lemma updateOrderStatus_ok user k body w resp w' :
  updateOrderStatus user k body w = (Ok resp, w') →
  ∃ r t,
    orders (db w) !! k = Some r
    ∧ mayUpdate user (order r) (products (db w) !! Order.product_id (order r))
    ∧ OrderUpdate.status body = Some t
    ∧ In t (adjacency (Order.status (order r)))
    ∧ resp = mkResponse 200
               (Some (join (db w) k
                        (mkRow (statusPatch body (order r)) (created_at r) (clock w))))
    ∧ orders (db w')
      = <[k := mkRow (statusPatch body (order r)) (created_at r) (clock w)]> (orders (db w))
    ∧ users (db w') = users (db w)
    ∧ products (db w') = products (db w)
    ∧ console w' = console w.
Proof.
  intros Hrun. run.
  destruct (hd false (faults w)) eqn:Hf0; cbn in Hrun; [done|].
  destruct (orders (db w) !! k) as [r|] eqn:Er; cbn in Hrun; [|done].
  destruct (canUpdate _ _ _) as [[[]|] w1] eqn:Hcan; cbn in Hrun; try done.
  apply canUpdate_inv in Hcan as [Hmay ->].
  unfold adjacency.
  destruct (property validTransitions _) as [targets|] eqn:Ht; cbn in Hrun; [|done].
  destruct (OrderUpdate.status body) as [t|] eqn:Et; cbn in Hrun; [|done].
  destruct (includes targets t) eqn:Hin; cbn in Hrun; [|done].
  apply includes_In in Hin.
  destruct (hd false (tl (faults w))) eqn:Hf1; cbn in Hrun; [done|].
  rewrite Er in Hrun. cbn in Hrun. simplify_eq.
  exists r, t. unfold statusPatch. rewrite Et, Ht. by repeat split.
Qed.

Lemma updateOrderStatus_moves user k body w r t :
  orders (db w) !! k = Some r →
  mayUpdate user (order r) (products (db w) !! Order.product_id (order r)) →
  answers 2 w →
  OrderUpdate.status body = Some t →
  In t (adjacency (Order.status (order r))) →
  ∃ w', updateOrderStatus user k body w
        = (Ok (mkResponse 200
                 (Some (join (db w) k
                          (mkRow (statusPatch body (order r)) (created_at r) (clock w))))),
           w').
Proof.
  intros Er Hmay Hf Et Hin.
  pose proof (answers_nth 2 w 0 Hf ltac:(lia)) as Hf0.
  pose proof (answers_nth 2 w 1 Hf ltac:(lia)) as Hf1. cbn in Hf0, Hf1.
  run. rewrite Hf0, Er. cbn.
  rewrite (canUpdate_true _ _ _ _ _ Hmay). cbn.
  unfold adjacency in Hin.
  destruct (property validTransitions _) as [targets|]; [|done]. cbn in Hin |- *.
  rewrite Et. cbn. apply includes_In in Hin. rewrite Hin. cbn.
  rewrite Hf1, Er. cbn. unfold statusPatch. rewrite Et. eauto.
Qed.

Lemma updateOrderStatus_invalid user k body w r :
  orders (db w) !! k = Some r →
  mayUpdate user (order r) (products (db w) !! Order.product_id (order r)) →
  answers 1 w →
  In (Order.status (order r)) statuses →
  (¬ ∃ t, OrderUpdate.status body = Some t ∧ In t (adjacency (Order.status (order r)))) →
  rejected (updateOrderStatus user k body w) w 1 400
    "INVALID_STATUS_TRANSITION" InvalidTransition.
Proof.
  intros Er Hmay Hf%answers_hd Hs Hno.
  run. rewrite Hf, Er. cbn.
  rewrite (canUpdate_true _ _ _ _ _ Hmay). cbn.
  unfold adjacency in Hno.
  assert (∃ targets, property validTransitions (Order.status (order r)) = Some targets)
    as [targets Ht].
  { cbn in Hs. destruct Hs as [<-|[<-|[<-|[<-|[<-|[]]]]]]; cbn; eauto. }
  rewrite Ht in Hno |- *. cbn in Hno |- *.
  destruct (OrderUpdate.status body) as [t|]; cbn; [|rejected_now].
  destruct (includes targets t) eqn:Hin; cbn; [|rejected_now].
  destruct Hno. exists t. split; [done|]. by apply includes_In.
Qed.

Lemma updateOrderStatus_forbidden user k body w r P :
  orders (db w) !! k = Some r →
  products (db w) !! Order.product_id (order r) = Some P →
  answers 1 w →
  ¬ mayUpdate user (order r) (Some P) →
  rejected (updateOrderStatus user k body w) w 1 403
    "INSUFFICIENT_PERMISSIONS" PermissionDenied.
Proof.
  intros Er EP Hf%answers_hd Hno.
  run. rewrite Hf, Er. cbn.
  rewrite (canUpdate_false _ _ _ _ _ P EP Hno). rejected_now.
Qed.

(** C2. For an order whose status [s] is one of the five of the schema, a
    caller allowed to update it and a store that answers: [updateOrderStatus]
    succeeds exactly when the requested status is in [validTransitions[s]],
    and then stores it; any other request is rejected with 400
    INVALID_STATUS_TRANSITION (InvalidTransition) and writes nothing. The
    table maps booked to confirmed/cancelled, confirmed to picked/cancelled,
    picked to delivered/cancelled, and delivered and cancelled to nothing, so
    every request on a delivered or cancelled order is rejected. *)
Theorem updateOrderStatus_transitions (user : ReqUser) (k : string)
    (body : OrderUpdate.t) (w : World) (r : OrderRow) :
  orders (db w) !! k = Some r →
  In (Order.status (order r)) statuses →
  mayUpdate user (order r) (products (db w) !! Order.product_id (order r)) →
  answers 2 w →
  let s := Order.status (order r) in
  let requested := ∃ t, OrderUpdate.status body = Some t ∧ In t (adjacency s) in
  ((∃ resp w', updateOrderStatus user k body w = (Ok resp, w')) ↔ requested)
  ∧ (∀ resp w', updateOrderStatus user k body w = (Ok resp, w') →
       Order.status ∘ order <$> orders (db w') !! k = OrderUpdate.status body)
  ∧ (¬ requested →
     rejected (updateOrderStatus user k body w) w 1 400
       "INVALID_STATUS_TRANSITION" InvalidTransition)
  ∧ (s = "delivered" ∨ s = "cancelled" →
     rejected (updateOrderStatus user k body w) w 1 400
       "INVALID_STATUS_TRANSITION" InvalidTransition)
  ∧ adjacency "booked" = ["confirmed"; "cancelled"]
  ∧ adjacency "confirmed" = ["picked"; "cancelled"]
  ∧ adjacency "picked" = ["delivered"; "cancelled"]
  ∧ adjacency "delivered" = []
  ∧ adjacency "cancelled" = [].
Proof.
  intros Er Hs Hmay Hf s requested.
  assert (answers 1 w) as Hf1 by (intros i Hi; apply Hf; lia).
  assert (¬ requested →
          rejected (updateOrderStatus user k body w) w 1 400
            "INVALID_STATUS_TRANSITION" InvalidTransition) as Hrej.
  { intros Hno. by apply (updateOrderStatus_invalid _ _ _ _ r). }
  repeat split; try done.
  - intros (resp & w' & Hrun).
    destruct (updateOrderStatus_ok _ _ _ _ _ _ Hrun) as (r' & t & Er' & _ & Et & Hin & _).
    exists t. by simplify_eq.
  - intros (t & Et & Hin).
    destruct (updateOrderStatus_moves _ _ _ _ _ _ Er Hmay Hf Et Hin) as [w' Hrun]. eauto.
  - intros resp w' Hrun.
    destruct (updateOrderStatus_ok _ _ _ _ _ _ Hrun)
      as (r' & t & Er' & _ & Et & _ & _ & -> & _).
    rewrite lookup_insert_eq. cbn. by rewrite Et.
  - intros Hterminal. apply Hrej. intros (t & _ & Hin).
    subst s. by destruct Hterminal as [E | E]; rewrite E in Hin.
Qed.

Lemma updateOrderStatus_transitions_witness :
  (∃ resp w', updateOrderStatus agentA "o1" toConfirmed world2 = (Ok resp, w'))
  ∧ Order.status ∘ order <$> orders (db world3) !! "o1" = Some "confirmed"
  ∧ rejected (updateOrderStatus agentA "o1" toDelivered world3) world3 1 400
      "INVALID_STATUS_TRANSITION" InvalidTransition.
Proof.
  assert (∀ n w, faults w = [] → answers n w) as Hans.
  { intros n w Hw i _. rewrite Hw. by destruct i. }
  destruct (updateOrderStatus_transitions agentA "o1" toConfirmed world2 row2)
    as (Hiff & Hset & _); [reflexivity | cbn; tauto | | by apply Hans |].
  { right. left. by split. }
  destruct (updateOrderStatus_transitions agentA "o1" toDelivered world3 row3)
    as (_ & _ & Hrej & _); [reflexivity | cbn; tauto | | by apply Hans |].
  { right. left. by split. }
  split; [|split].
  - apply Hiff. exists "confirmed". split; [done|]. vm_compute. tauto.
  - eapply Hset. by vm_compute.
  - apply Hrej. intros (t & Ht & Hin). injection Ht as <-.
    vm_compute in Hin. by destruct Hin as [|[|]].
Defined.

(** C7. For an order in the store (with its product), read from a store that
    answers: [updateOrderStatus] succeeds only for an admin, for the agent
    assigned to the order, or for the farmer of its product. Every other
    caller gets 403 INSUFFICIENT_PERMISSIONS (PermissionDenied) whatever the
    requested status, with nothing written; a customer, the order's own
    included, is among them, and the route rejects a customer already at its
    role guard, before the order is read. *)
Theorem updateOrderStatus_authorization (user : ReqUser) (k : string)
    (body : OrderUpdate.t) (w : World) (r : OrderRow) (P : Product.t) :
  orders (db w) !! k = Some r →
  products (db w) !! Order.product_id (order r) = Some P →
  answers 1 w →
  (∀ resp w', updateOrderStatus user k body w = (Ok resp, w') →
     mayUpdate user (order r) (Some P))
  ∧ (¬ mayUpdate user (order r) (Some P) →
     rejected (updateOrderStatus user k body w) w 1 403
       "INSUFFICIENT_PERMISSIONS" PermissionDenied)
  ∧ (role user = "customer" →
     rejected (updateOrderStatus user k body w) w 1 403
       "INSUFFICIENT_PERMISSIONS" PermissionDenied
     ∧ rejected (putOrderStatus user k body w) w 0 403
         "INSUFFICIENT_PERMISSIONS" PermissionDenied).
Proof.
  intros Er EP Hf. split; [|split].
  - intros resp w' Hrun.
    destruct (updateOrderStatus_ok _ _ _ _ _ _ Hrun) as (r' & t & Er' & Hmay & _).
    simplify_eq. by rewrite EP in Hmay.
  - by apply updateOrderStatus_forbidden.
  - intros Hrole. split.
    + apply (updateOrderStatus_forbidden _ _ _ _ r P); try done.
      unfold mayUpdate. rewrite Hrole. intros [?|[[? _]|[? _]]]; discriminate.
    + unfold putOrderStatus, requireRole, bind, when, throw. rewrite Hrole.
      rejected_now.
Qed.

Lemma updateOrderStatus_authorization_witness :
  Order.customer_id (order row2) = id customerC
  ∧ rejected (updateOrderStatus customerC "o1" toConfirmed world2) world2 1 403
      "INSUFFICIENT_PERMISSIONS" PermissionDenied
  ∧ rejected (putOrderStatus customerC "o1" toConfirmed world2) world2 0 403
      "INSUFFICIENT_PERMISSIONS" PermissionDenied
  ∧ mayUpdate agentA (order row2) (Some productP7).
Proof.
  destruct (updateOrderStatus_authorization customerC "o1" toConfirmed world2 row2 productP7)
    as (_ & _ & Hcust); [reflexivity | by vm_compute | by intros [|i] _ |].
  destruct (updateOrderStatus_authorization agentA "o1" toConfirmed world2 row2 productP7)
    as (Hok & _); [reflexivity | by vm_compute | by intros [|i] _ |].
  destruct (Hcust eq_refl) as [H1 H2].
  repeat split; try done.
  eapply Hok. by vm_compute.
Defined.

(** C9. A successful [updateOrderStatus] rewrites one row, and in it only the
    status (to the requested one) and, when agent notes were supplied, the
    agent notes: product, customer, agent, quantity, unit and total price,
    commission and its rate, delivery address and customer notes of the order
    are as before, and so are every other order, the users and the products. *)
Theorem updateOrderStatus_frame (user : ReqUser) (k : string) (body : OrderUpdate.t)
    (w w' : World) (resp : Response (option JoinedOrder)) :
  updateOrderStatus user k body w = (Ok resp, w') →
  ∃ r r',
    orders (db w) !! k = Some r
    ∧ orders (db w') !! k = Some r'
    ∧ payload resp = Some (join (db w) k r')
    ∧ Some (Order.status (order r')) = OrderUpdate.status body
    ∧ Order.agent_notes (order r')
      = match truthy (OrderUpdate.agent_notes body) with
        | Some notes => Some notes
        | None => Order.agent_notes (order r)
        end
    ∧ Order.product_id (order r') = Order.product_id (order r)
    ∧ Order.customer_id (order r') = Order.customer_id (order r)
    ∧ Order.agent_id (order r') = Order.agent_id (order r)
    ∧ Order.quantity (order r') = Order.quantity (order r)
    ∧ Order.unit_price (order r') = Order.unit_price (order r)
    ∧ Order.total_price (order r') = Order.total_price (order r)
    ∧ Order.commission (order r') = Order.commission (order r)
    ∧ Order.commission_rate (order r') = Order.commission_rate (order r)
    ∧ Order.delivery_address (order r') = Order.delivery_address (order r)
    ∧ Order.customer_notes (order r') = Order.customer_notes (order r)
    ∧ (∀ j, j ≠ k → orders (db w') !! j = orders (db w) !! j)
    ∧ users (db w') = users (db w)
    ∧ products (db w') = products (db w).
Proof.
  intros Hrun.
  destruct (updateOrderStatus_ok _ _ _ _ _ _ Hrun)
    as (r & t & Er & _ & Et & _ & -> & Ho & Hu & Hp & _).
  exists r, (mkRow (statusPatch body (order r)) (created_at r) (clock w)).
  rewrite Ho. repeat split; try done.
  - apply lookup_insert_eq.
  - cbn. by rewrite Et.
  - intros j Hj. by rewrite lookup_insert_ne.
Qed.

Lemma updateOrderStatus_frame_witness :
  ∃ r',
    orders (db world3) !! "o1" = Some r'
    ∧ updateOrderStatus agentA "o1" toPickedNoted world3
      = (Ok (mkResponse 200 (Some (join (db world3) "o1" row4))), world4)
    ∧ Order.status (order row4) = "picked"
    ∧ Order.agent_notes (order row4) = Some "left at the farm"
    ∧ Order.total_price (order row4) = Order.total_price (order r')
    ∧ Order.commission (order row4) = Order.commission (order r')
    ∧ Order.agent_id (order row4) = Order.agent_id (order r').
Proof.
  assert (updateOrderStatus agentA "o1" toPickedNoted world3
          = (Ok (mkResponse 200 (Some (join (db world3) "o1" row4))), world4)) as Hrun
    by (by vm_compute).
  destruct (updateOrderStatus_frame agentA "o1" toPickedNoted world3 world4 _ Hrun)
    as (r & r' & Er & Er' & Hresp & Hst & Hnotes & _ & _ & Hag & _ & _ & Htot & Hcom & _).
  cbn in Hresp. injection Hresp as <-.
  exists r. by repeat split.
Defined.

(** *** Reading one order *)

Lemma hasAccess_true user k r s w :
  mayRead user (order r) (products s !! Order.product_id (order r)) →
  hasAccess user (join s k r) w = (Ok true, w).
Proof.
  unfold mayRead, hasAccess, join, ret, throw. cbn.
  destruct (String.eqb_spec (role user) "admin"); [done|].
  destruct (String.eqb_spec (Order.customer_id (order r)) (id user)); [done|].
  case_bool_decide; [done|].
  intros [?|[?|[?|Hp]]]; try done.
  destruct (products s !! _) as [P|]; [|done]. cbn in Hp.
  injection Hp as ->. by rewrite String.eqb_refl.
Qed.

Lemma hasAccess_false user k r s w P :
  products s !! Order.product_id (order r) = Some P →
  ¬ mayRead user (order r) (Some P) →
  hasAccess user (join s k r) w = (Ok false, w).
Proof.
  unfold mayRead, hasAccess, join, ret, throw. cbn. intros -> Hno.
  destruct (String.eqb_spec (role user) "admin"); [tauto|].
  destruct (String.eqb_spec (Order.customer_id (order r)) (id user)); [tauto|].
  case_bool_decide; [tauto|].
  destruct (String.eqb_spec (Product.farmer_id P) (id user)); [|done].
  destruct Hno. do 3 right. cbn. by f_equal.
Qed.

Lemma hasAccess_inv user k r s w w' :
  hasAccess user (join s k r) w = (Ok true, w') →
  mayRead user (order r) (products s !! Order.product_id (order r)) ∧ w' = w.
Proof.
  unfold mayRead, hasAccess, join, ret, throw. cbn.
  destruct (String.eqb_spec (role user) "admin"); [intros; simplify_eq; auto|].
  destruct (String.eqb_spec (Order.customer_id (order r)) (id user));
    [intros; simplify_eq; auto|].
  case_bool_decide; [intros; simplify_eq; auto|].
  destruct (products s !! _) as [P|]; [|done].
  destruct (String.eqb_spec (Product.farmer_id P) (id user)); [|done].
  intros; simplify_eq. split; [|done]. do 3 right. cbn. by f_equal.
Qed.

(** C8. For an order in the store (with its product), read from a store that
    answers: [getOrder] returns the order exactly when the caller is an admin,
    or its customer, or its agent, or the farmer of its product; it then
    answers 200 with that row and writes nothing. Every other caller gets 403
    ACCESS_DENIED (AccessDenied): an error, so no order data. *)
Theorem getOrder_access (user : ReqUser) (k : string) (w : World)
    (r : OrderRow) (P : Product.t) :
  orders (db w) !! k = Some r →
  products (db w) !! Order.product_id (order r) = Some P →
  answers 1 w →
  ((∃ w', getOrder user k w = (Ok (mkResponse 200 (join (db w) k r)), w') ∧ db w' = db w)
   ↔ mayRead user (order r) (Some P))
  ∧ (∀ resp w', getOrder user k w = (Ok resp, w') →
       resp = mkResponse 200 (join (db w) k r))
  ∧ (¬ mayRead user (order r) (Some P) →
     rejected (getOrder user k w) w 1 403 "ACCESS_DENIED" AccessDenied).
Proof.
  intros Er EP Hf%answers_hd.
  assert (∀ resp w', getOrder user k w = (Ok resp, w') →
            resp = mkResponse 200 (join (db w) k r)
            ∧ mayRead user (order r) (Some P)) as Hinv.
  { intros resp w' Hrun. run. rewrite Hf, Er in Hrun. cbn in Hrun.
    destruct (hasAccess _ _ _) as [[[]|] w1] eqn:Hacc; cbn in Hrun; try done.
    apply hasAccess_inv in Hacc as [Hmay ->]. rewrite EP in Hmay. by simplify_eq. }
  split; [split|split].
  - intros (w' & Hrun & _). by apply Hinv in Hrun as [_ ?].
  - intros Hmay. rewrite <- EP in Hmay.
    run. rewrite Hf, Er. cbn. rewrite (hasAccess_true _ _ _ _ _ Hmay). cbn. eauto.
  - intros resp w' Hrun. by apply Hinv in Hrun as [? _].
  - intros Hno. run. rewrite Hf, Er. cbn.
    rewrite (hasAccess_false _ _ _ _ _ P EP Hno). rejected_now.
Qed.

Lemma getOrder_access_witness :
  (∃ w', getOrder customerC "o1" world2
         = (Ok (mkResponse 200 (join (db world2) "o1" row2)), w') ∧ db w' = db world2)
  ∧ (∃ w', getOrder agentA "o1" world2
           = (Ok (mkResponse 200 (join (db world2) "o1" row2)), w') ∧ db w' = db world2)
  ∧ (∃ w', getOrder farmerF "o1" world2
           = (Ok (mkResponse 200 (join (db world2) "o1" row2)), w') ∧ db w' = db world2)
  ∧ (∃ w', getOrder adminZ "o1" world2
           = (Ok (mkResponse 200 (join (db world2) "o1" row2)), w') ∧ db w' = db world2)
  ∧ rejected (getOrder strangerS "o1" world2) world2 1 403 "ACCESS_DENIED" AccessDenied.
Proof.
  assert (orders (db world2) !! "o1" = Some row2) as Er by reflexivity.
  assert (products (db world2) !! Order.product_id (order row2) = Some productP7) as EP
    by (by vm_compute).
  assert (answers 1 world2) as Hf by (by intros [|i] _).
  repeat split.
  - apply (getOrder_access customerC "o1" world2 row2 productP7 Er EP Hf).
    right. by left.
  - apply (getOrder_access agentA "o1" world2 row2 productP7 Er EP Hf).
    do 2 right. by left.
  - apply (getOrder_access farmerF "o1" world2 row2 productP7 Er EP Hf).
    by do 3 right.
  - apply (getOrder_access adminZ "o1" world2 row2 productP7 Er EP Hf).
    by left.
  - apply (getOrder_access strangerS "o1" world2 row2 productP7 Er EP Hf).
    by intros [|[|[|]]].
Defined.

(** *** Agent assignment *)

Lemma mayAssign_tests user o :
  mayAssign user o →
  negb (String.eqb (role user) "customer") && negb (String.eqb (role user) "admin") = false
  ∧ String.eqb (role user) "customer" && negb (String.eqb (Order.customer_id o) (id user))
    = false.
Proof.
  intros [Hr|[Hr Ho]]; rewrite Hr; cbn; [done|].
  by rewrite Ho, String.eqb_refl.
Qed.

Lemma activeAgent_test s a A :
  users s !! a = Some A →
  String.eqb (User.role A) "agent" && User.is_active A = true ↔ activeAgent s a A.
Proof.
  intros EA. unfold activeAgent. rewrite andb_true_iff, String.eqb_eq. tauto.
Qed.

Lemma assignAgent_ok user k a w resp w' :
  assignAgent user k a w = (Ok resp, w') →
  ∃ r P A,
    orders (db w) !! k = Some r
    ∧ products (db w) !! Order.product_id (order r) = Some P
    ∧ mayAssign user (order r)
    ∧ activeAgent (db w) a A
    ∧ User.district_id A = Some (Product.district_id P)
    ∧ resp = mkResponse 200
               (Some (join (db w) k
                        (mkRow (agentPatch a (Order.total_price (order r)) (order r))
                           (created_at r) (clock w))))
    ∧ orders (db w')
      = <[k := mkRow (agentPatch a (Order.total_price (order r)) (order r))
                 (created_at r) (clock w)]> (orders (db w))
    ∧ users (db w') = users (db w)
    ∧ products (db w') = products (db w).
Proof.
  intros Hrun. run. unfold mayAssign.
  destruct (String.eqb_spec (role user) "customer") as [Hc|Hc];
    destruct (String.eqb_spec (role user) "admin") as [Ha|Ha];
    cbn in Hrun; try done; try congruence.
  all: destruct (hd false (faults w)) eqn:Hf0; cbn in Hrun; [done|].
  all: destruct (orders (db w) !! k) as [r|] eqn:Er; cbn in Hrun; [|done].
  1: destruct (String.eqb_spec (Order.customer_id (order r)) (id user)) as [Ho|Ho];
       cbn in Hrun; [|done].
  all: destruct (hd false (tl (faults w))) eqn:Hf1; cbn in Hrun; [done|].
  all: destruct (users (db w) !! a) as [A|] eqn:EA; cbn in Hrun; [|done].
  all: destruct (_ && _) eqn:HA; cbn in Hrun; [|done].
  all: apply (activeAgent_test _ _ _ EA) in HA.
  all: destruct (products (db w) !! _) as [P|] eqn:EP; cbn in Hrun; [|done].
  all: case_bool_decide; cbn in Hrun; [|done].
  all: destruct (hd false (tl (tl (faults w)))) eqn:Hf2; cbn in Hrun; [done|].
  all: rewrite Er in Hrun; cbn in Hrun; simplify_eq.
  all: exists r, P, A; repeat split; auto; apply HA.
Qed.

Lemma assignAgent_assigns user k a w r P A :
  orders (db w) !! k = Some r →
  products (db w) !! Order.product_id (order r) = Some P →
  mayAssign user (order r) →
  answers 3 w →
  activeAgent (db w) a A →
  User.district_id A = Some (Product.district_id P) →
  ∃ w', assignAgent user k a w
        = (Ok (mkResponse 200
                 (Some (join (db w) k
                          (mkRow (agentPatch a (Order.total_price (order r)) (order r))
                             (created_at r) (clock w))))),
           w').
Proof.
  intros Er EP [Hr1 Hr2]%mayAssign_tests Hf HA Hd.
  pose proof (answers_nth 3 w 0 Hf ltac:(lia)) as Hf0.
  pose proof (answers_nth 3 w 1 Hf ltac:(lia)) as Hf1.
  pose proof (answers_nth 3 w 2 Hf ltac:(lia)) as Hf2. cbn in Hf0, Hf1, Hf2.
  pose proof (proj1 HA) as EA. apply (activeAgent_test _ _ _ EA) in HA.
  run. rewrite Hr1, Hf0, Er. cbn. rewrite Hr2. cbn. rewrite Hf1, EA. cbn. rewrite HA. cbn.
  rewrite EP. cbn. rewrite bool_decide_eq_true_2 by done. cbn.
  rewrite Hf2, Er. cbn. eauto.
Qed.

Lemma assignAgent_no_agent user k a w r :
  orders (db w) !! k = Some r →
  mayAssign user (order r) →
  answers 1 w →
  (¬ ∃ A, activeAgent (db w) a A) →
  rejected (assignAgent user k a w) w 2 404 "AGENT_NOT_FOUND" NotFound.
Proof.
  intros Er [Hr1 Hr2]%mayAssign_tests Hf%answers_hd Hno.
  run. rewrite Hr1, Hf, Er. cbn. rewrite Hr2. cbn.
  destruct (hd false (tl (faults w))); cbn; [rejected_now|].
  destruct (users (db w) !! a) as [A|] eqn:EA; cbn; [|rejected_now].
  destruct (String.eqb (User.role A) "agent" && User.is_active A) eqn:HA; cbn;
    [|rejected_now].
  apply (activeAgent_test _ _ _ EA) in HA. destruct Hno; eauto.
Qed.




(** *** Listing orders *)


Lemma sorted_elem q rows j : j ∈ sorted q rows ↔ j ∈ rows.
Proof.
  unfold sorted. destruct (Query.ordering q) as [[field ascending]|]; [|done].
  by rewrite merge_sort_Permutation.
Qed.

Lemma windowed_elem q rows page j :
  windowed q rows = mkReply (Some page) false → j ∈ page → j ∈ rows.
Proof.
  unfold windowed, found, failed.
  destruct (Query.window q) as [[from to]|]; [|by intros; simplify_eq].
  destruct (from <? 0); [done|]. intros; simplify_eq.
  by eapply subseteq_drop, subseteq_take.
Qed.

Lemma keptBy_eq name value q j :
  keptBy (query_eq name value q) j = true
  ↔ keptBy q j = true ∧ column name j = Some value.
Proof.
  unfold keptBy, query_eq. cbn. rewrite forallb_app. cbn.
  rewrite !andb_true_iff, bool_decide_eq_true. tauto.
Qed.

Lemma roleScope_known user w :
  role user ∈ roles →
  ∃ q, roleScope user fromOrders w = (Ok q, w)
       ∧ Query.ordering q = None ∧ Query.window q = None
       ∧ ∀ j, keptBy q j = true ↔ visible user j.
Proof.
  intros Hr. unfold roleScope, visible, ret, throw.
  destruct (String.eqb_spec (role user) "customer") as [E|E].
  { eexists. repeat split; try done; rewrite E.
    - intros [_ H]%keptBy_eq. left. cbn in H. by simplify_eq.
    - intros [[_ H]|[[? _]|[[? _]|?]]]; try done.
      apply keptBy_eq. split; [done|]. cbn. by rewrite H. }
  destruct (String.eqb_spec (role user) "agent") as [E1|E1].
  { eexists. repeat split; try done; rewrite E1.
    - intros [_ H]%keptBy_eq. right. left. by cbn in H.
    - intros [[? _]|[[_ H]|[[? _]|?]]]; try done.
      by apply keptBy_eq. }
  destruct (String.eqb_spec (role user) "farmer") as [E2|E2].
  { eexists. repeat split; try done; rewrite E2.
    - intros [_ H]%keptBy_eq. right. right. left. by cbn in H.
    - intros [[? _]|[[? _]|[[_ H]|?]]]; try done.
      by apply keptBy_eq. }
  destruct (String.eqb_spec (role user) "admin") as [E3|E3].
  { eexists. repeat split; try done. intros _. by do 3 right. }
  exfalso. unfold roles in Hr. rewrite !elem_of_cons, elem_of_nil in Hr. tauto.
Qed.

Lemma roleScope_unknown user w :
  role user ∉ roles →
  roleScope user fromOrders w = (Throw (AppError "Invalid user role" 403 "INVALID_ROLE"), w).
Proof.
  intros Hr. unfold roleScope, roles in *.
  rewrite !elem_of_cons, elem_of_nil in Hr.
  destruct (String.eqb_spec (role user) "customer"); [tauto|].
  destruct (String.eqb_spec (role user) "agent"); [tauto|].
  destruct (String.eqb_spec (role user) "farmer"); [tauto|].
  destruct (String.eqb_spec (role user) "admin"); [tauto|]. done.
Qed.

(** The query [getMyOrders] awaits, from the role-scoped one. *)
Lemma statusFilter_kept params q j :
  keptBy match truthy (ListQuery.status params) with
         | Some st => query_eq "status" st q
         | None => q
         end j = true
  ↔ keptBy q j = true ∧ wanted params j.
Proof.
  unfold wanted. destruct (truthy (ListQuery.status params)) as [st|].
  - rewrite keptBy_eq. cbn. split.
    + intros [? H]. split; [done|]. intros st' ?. by simplify_eq.
    + intros [? H]. split; [done|]. f_equal. by apply H.
  - split; [|tauto]. intros ?. split; [done|]. by intros st' ?.
Qed.

Lemma getMyOrders_ok user params w resp w' :
  getMyOrders user params w = (Ok resp, w') →
  ∃ rows,
    resp = mkResponse 200 (Some rows)
    ∧ db w' = db w
    ∧ role user ∈ roles
    ∧ ∀ j, j ∈ rows → j ∈ allOrders (db w) ∧ visible user j ∧ wanted params j.
Proof.
  intros Hrun.
  destruct (decide (role user ∈ roles)) as [Hr|Hr]; cycle 1.
  { unfold getMyOrders, bind in Hrun. by rewrite roleScope_unknown in Hrun. }
  destruct (roleScope_known user w Hr) as (q & Hq & Hord & Hwin & Hkept).
  unfold getMyOrders, bind in Hrun. rewrite Hq in Hrun. run.
  destruct (hd false (faults w)); cbn in Hrun; [done|].
  destruct (windowed _ _) as [[rows|] []] eqn:Hw; cbn in Hrun; try done; cycle 1.
  { unfold windowed, found, failed in Hw. cbn in Hw. by case_match. }
  simplify_eq. exists rows. repeat split; try done.
  all: eapply windowed_elem in Hw; [|done].
  all: apply sorted_elem, list_elem_of_In, filter_In in Hw as [Hin Hk].
  all: apply list_elem_of_In in Hin.
  all: unfold keptBy in Hk; cbn [Query.filters query_range query_order] in Hk.
  all: apply statusFilter_kept in Hk as [Hk Hwant]; try done.
  all: by apply Hkept.
Qed.






(** * Further properties *)

(** ** What a call writes *)

Lemma void_run {A} (m : M A) w :
  void m w = (match (m w).1 with Ok _ => Ok tt | Throw e => Throw e end, (m w).2).
Proof. unfold void, bind, ret. by destruct (m w) as [[a|e] w']. Qed.

Lemma createOrder_throw user body w e w' :
  createOrder user body w = (Throw e, w') → db w' = db w ∧ console w' = console w.
Proof. intros Hrun. run. crush Hrun; done. Qed.

Lemma updateOrderStatus_throw user k body w e w' :
  updateOrderStatus user k body w = (Throw e, w') → db w' = db w ∧ console w' = console w.
Proof. intros Hrun. run. unfold canUpdate, ret, throw in Hrun. crush Hrun; done. Qed.

Lemma assignAgent_throw user k a w e w' :
  assignAgent user k a w = (Throw e, w') → db w' = db w ∧ console w' = console w.
Proof. intros Hrun. run. crush Hrun; done. Qed.

Lemma deleteProduct_throw user k w e w' :
  deleteProduct user k w = (Throw e, w') → db w' = db w ∧ console w' = console w.
Proof. intros Hrun. run'. crush Hrun; done. Qed.

Lemma deactivateAccount_throw user w e w' :
  deactivateAccount user w = (Throw e, w') → db w' = db w ∧ console w' = console w.
Proof. intros Hrun. run'. crush Hrun; done. Qed.

Lemma getOrder_reads user k w :
  db (getOrder user k w).2 = db w ∧ console (getOrder user k w).2 = console w.
Proof.
  destruct (getOrder user k w) as [r w'] eqn:Hrun. run.
  unfold hasAccess, ret, throw in Hrun. crush Hrun; done.
Qed.

Lemma getMyOrders_reads user params w :
  db (getMyOrders user params w).2 = db w
  ∧ console (getMyOrders user params w).2 = console w.
Proof.
  destruct (getMyOrders user params w) as [r w'] eqn:Hrun. run.
  unfold roleScope, ret, throw in Hrun.
  destruct (String.eqb (role user) "customer"), (String.eqb (role user) "agent"),
    (String.eqb (role user) "farmer"), (String.eqb (role user) "admin");
    cbn in Hrun;
    repeat match type of Hrun with
           | context [windowed ?q ?l] => destruct (windowed q l) as [? []]
           | context [hd false ?l] => destruct (hd false l)
           end; cbn in Hrun; by simplify_eq.
Qed.

Lemma getAvailableAgents_reads nameOf d w :
  db (getAvailableAgents nameOf d w).2 = db w
  ∧ console (getAvailableAgents nameOf d w).2 = console w.
Proof.
  destruct (getAvailableAgents nameOf d w) as [r w'] eqn:Hrun. run'.
  destruct (truthy d); cbn in Hrun; [|by simplify_eq].
  destruct (hd false (faults w)); cbn in Hrun; by simplify_eq.
Qed.

Lemma createOrder_step user body w resp w' :
  createOrder user body w = (Ok resp, w') → Step (db w) (db w').
Proof.
  intros Hrun. run.
  destruct (negb _ && negb _) eqn:Hrole; cbn in Hrun; [done|].
  destruct (hd false (faults w)) eqn:Hf0; cbn in Hrun; [done|].
  destruct (products (db w) !! _) as [P|] eqn:EP; cbn in Hrun; [|done].
  destruct (Product.is_active P) eqn:Eact; cbn in Hrun; [|done].
  destruct (bool_decide _) eqn:Hlt; cbn in Hrun; [done|].
  apply bool_decide_eq_false, Qcnot_lt_le in Hlt.
  destruct (truthy (OrderCreate.agent_id body)) as [a|] eqn:Ha; cbn in Hrun.
  - destruct (hd false (tl (faults w))) eqn:Hf1; cbn in Hrun; [done|].
    destruct (users (db w) !! a) as [A|] eqn:EA; cbn in Hrun; [|done].
    destruct (String.eqb_spec (User.role A) "agent") as [HA|]; cbn in Hrun; [|done].
    destruct (User.is_active A); cbn in Hrun; [|done].
    case_bool_decide as Hd; cbn in Hrun; [|done].
    destruct (hd false (tl (tl (faults w)))) eqn:Hf2; cbn in Hrun; [done|].
    destruct (head (uuids w)) as [k|] eqn:Hk; cbn in Hrun; [|done].
    destruct (orders (db w) !! k) eqn:Ek; cbn in Hrun; [done|].
    destruct (hd false (tl (tl (tl (faults w))))) eqn:Hf3; cbn in Hrun; simplify_eq.
    all: eapply (step_create _ _ user body P k (clock w)); try done; cbn;
      unfold orderData; rewrite ?Ha; eauto.
    all: intros a' ?; simplify_eq; eauto.
  - destruct (hd false (tl (faults w))) eqn:Hf1; cbn in Hrun; [done|].
    destruct (head (uuids w)) as [k|] eqn:Hk; cbn in Hrun; [|done].
    destruct (orders (db w) !! k) eqn:Ek; cbn in Hrun; [done|].
    destruct (hd false (tl (tl (faults w)))) eqn:Hf2; cbn in Hrun; simplify_eq.
    all: eapply (step_create _ _ user body P k (clock w)); try done; cbn;
      unfold orderData; rewrite ?Ha; eauto.
    all: by intros a' ?.
Qed.

Lemma updateOrderStatus_step user k body w resp w' :
  updateOrderStatus user k body w = (Ok resp, w') → Step (db w) (db w').
Proof.
  intros Hrun.
  destruct (updateOrderStatus_ok _ _ _ _ _ _ Hrun)
    as (r & t & Er & _ & Et & Hin & _ & Ho & Hu & Hp & _).
  by eapply (step_update _ _ k r body t (clock w)).
Qed.

Lemma assignAgent_step user k a w resp w' :
  assignAgent user k a w = (Ok resp, w') → Step (db w) (db w').
Proof.
  intros Hrun.
  destruct (assignAgent_ok _ _ _ _ _ _ Hrun)
    as (r & P & A & Er & EP & _ & HA & Hd & _ & Ho & Hu & Hp).
  by eapply (step_assign _ _ k a r P A (clock w)).
Qed.

Lemma deleteProduct_ok user k w resp w' :
  deleteProduct user k w = (Ok resp, w') →
  ∃ P, products (db w) !! k = Some P
       ∧ (role user = "admin" ∨ Product.farmer_id P = id user)
       ∧ users (db w') = users (db w)
       ∧ products (db w') = alter deactivated k (products (db w))
       ∧ orders (db w') = orders (db w)
       ∧ console w' = console w.
Proof.
  intros Hrun. run'.
  destruct (hd false (faults w)); cbn in Hrun; [done|].
  destruct (products (db w) !! k) as [P|] eqn:EP; cbn in Hrun; [|done].
  destruct (String.eqb_spec (role user) "admin");
    destruct (String.eqb_spec (Product.farmer_id P) (id user)); cbn in Hrun; try done.
  all: destruct (hd false (tl (faults w))); cbn in Hrun; [done|].
  all: simplify_eq; exists P; cbn; repeat split; auto.
Qed.

Lemma deactivateAccount_ok user w resp w' :
  deactivateAccount user w = (Ok resp, w') →
  role user ≠ "admin"
  ∧ users (db w') = alter inactive (id user) (users (db w))
  ∧ products (db w') = products (db w)
  ∧ orders (db w') = orders (db w)
  ∧ console w' = console w.
Proof.
  intros Hrun. run'.
  destruct (String.eqb_spec (role user) "admin"); cbn in Hrun; [done|].
  destruct (hd false (faults w)); cbn in Hrun; [done|].
  by simplify_eq.
Qed.

Lemma serve_step q w : Step (db w) (db (serve q w).2).
Proof.
  destruct q; cbn [serve]; rewrite void_run; cbn [snd].
  - destruct (createOrder user body w) as [[resp|e] w'] eqn:Hrun; cbn [snd].
    + exact (createOrder_step _ _ _ _ _ Hrun).
    + apply step_none. by eapply createOrder_throw.
  - apply step_none. apply getMyOrders_reads.
  - apply step_none. apply getOrder_reads.
  - destruct (updateOrderStatus user k body w) as [[resp|e] w'] eqn:Hrun; cbn [snd].
    + exact (updateOrderStatus_step _ _ _ _ _ _ Hrun).
    + apply step_none. by eapply updateOrderStatus_throw.
  - destruct (assignAgent user k agent_id w) as [[resp|e] w'] eqn:Hrun; cbn [snd].
    + exact (assignAgent_step _ _ _ _ _ _ Hrun).
    + apply step_none. by eapply assignAgent_throw.
  - apply step_none. apply getAvailableAgents_reads.
  - destruct (deleteProduct user k w) as [[resp|e] w'] eqn:Hrun; cbn [snd].
    + destruct (deleteProduct_ok _ _ _ _ _ Hrun) as (P & _ & _ & Hu & Hp & Ho & _).
      by eapply step_delete_product.
    + apply step_none. by eapply deleteProduct_throw.
  - destruct (deactivateAccount user w) as [[resp|e] w'] eqn:Hrun; cbn [snd].
    + destruct (deactivateAccount_ok _ _ _ _ Hrun) as (_ & Hu & Hp & Ho & _).
      by eapply step_deactivate.
    + apply step_none. by eapply deactivateAccount_throw.
Qed.




(** ** Invariants along histories *)

Lemma after_invariant (I : Store → Prop) :
  (∀ s s', Step s s' → I s → I s') →
  ∀ history w, I (db w) → I (db (after history w)).
Proof.
  intros Hstep history. induction history as [|q rest IH]; intros w Hw; [done|].
  cbn. apply IH. eapply Hstep; [apply serve_step | done].
Qed.

















Lemma step_keeps_stock s s' : Step s s' → stockOk s → stockOk s'.
Proof.
  intros [->|user body P k t EP Hle Hag Ek Hu Ho Hp
          |k r body target t Er Et Hin Hu Hp Ho
          |k a r P A t Er EP HA Hd Hu Hp Ho
          |k Hu Hp Ho|k Hu Hp Ho] Hok j Q Ej.
  - by eapply Hok.
  - destruct Hp as [Hp|Hp]; rewrite Hp in Ej; [by eapply Hok|].
    destruct (decide (OrderCreate.product_id body = j)) as [<-|Hne].
    + rewrite lookup_alter_eq, EP in Ej. cbn in Ej. injection Ej as <-. cbn.
      by apply Qcle_minus_iff in Hle.
    + rewrite lookup_alter_ne in Ej by done. by eapply Hok.
  - rewrite Hp in Ej. by eapply Hok.
  - rewrite Hp in Ej. by eapply Hok.
  - rewrite Hp in Ej. destruct (decide (k = j)) as [<-|Hne].
    + rewrite lookup_alter_eq in Ej.
      destruct (products s !! k) as [Q'|] eqn:EQ; [|done].
      cbn in Ej. injection Ej as <-. cbn. by eapply Hok.
    + rewrite lookup_alter_ne in Ej by done. by eapply Hok.
  - rewrite Hp in Ej. by eapply Hok.
Qed.

(** X6. No history of requests makes a stock negative: [createOrder] only
    takes from a product what it has, so if every [available_quantity] is at
    least 0 it is so after any sequence of requests. *)
Theorem history_keeps_stock (history : list Request) (w : World) :
  stockOk (db w) → stockOk (db (after history w)).
Proof. apply after_invariant, step_keeps_stock. Qed.

Lemma history_keeps_stock_witness :
  stockOk (db (after [Create customerC order3; Create adminZ order3;
                      Create customerC order11] world0)).
Proof.
  apply history_keeps_stock. intros k P Hk.
  change (products (db world0)) with (<["P" := productP]> (∅ : gmap string Product.t)) in Hk.
  apply lookup_insert_Some in Hk as [[_ <-]|[_ Hk]]; [done|].
  by rewrite lookup_empty in Hk.
Defined.

(** ** The life of an order along a history *)

(** The orders after a request, by the kind of the request. *)
Lemma serve_orders q w :
  let before := orders (db w) in
  let after1 := orders (db (serve q w).2) in
  match q with
  | Update _ k body =>
      if served q w then
        ∃ r target t,
          before !! k = Some r ∧ OrderUpdate.status body = Some target
          ∧ In target (adjacency (Order.status (order r)))
          ∧ after1 = <[k := mkRow (statusPatch body (order r)) (created_at r) t]> before
      else after1 = before
  | Create _ _ =>
      after1 = before
      ∨ ∃ k row, before !! k = None ∧ Order.status (order row) = "booked"
                 ∧ after1 = <[k := row]> before
  | Assign _ k _ =>
      after1 = before
      ∨ ∃ r row, before !! k = Some r
                 ∧ Order.status (order row) = Order.status (order r)
                 ∧ after1 = <[k := row]> before
  | _ => after1 = before
  end.
Proof.
  unfold served. destruct q; cbn [serve]; rewrite void_run; cbn [fst snd].
  - destruct (createOrder user body w) as [[resp|e] w'] eqn:Hrun; cbn [fst snd].
    + destruct (createOrder_ok _ _ _ _ _ Hrun) as (P & k & _ & _ & _ & _ & _ & Ek & _ & Ho & _).
      right. by exists k, (mkRow (orderData user body P) (clock w) (clock w)).
    + left. f_equal. by eapply createOrder_throw.
  - f_equal. apply getMyOrders_reads.
  - f_equal. apply getOrder_reads.
  - destruct (updateOrderStatus user k body w) as [[resp|e] w'] eqn:Hrun; cbn [fst snd].
    + destruct (updateOrderStatus_ok _ _ _ _ _ _ Hrun)
        as (r & t & Er & _ & Et & Hin & _ & Ho & _).
      by exists r, t, (clock w).
    + f_equal. by eapply updateOrderStatus_throw.
  - destruct (assignAgent user k agent_id w) as [[resp|e] w'] eqn:Hrun; cbn [fst snd].
    + destruct (assignAgent_ok _ _ _ _ _ _ Hrun)
        as (r & P & A & Er & _ & _ & _ & _ & _ & Ho & _).
      right. eexists r, _. split; [done|]. split; [|exact Ho]. done.
    + left. f_equal. by eapply assignAgent_throw.
  - f_equal. apply getAvailableAgents_reads.
  - destruct (deleteProduct user k w) as [[resp|e] w'] eqn:Hrun; cbn [fst snd].
    + by destruct (deleteProduct_ok _ _ _ _ _ Hrun) as (P & _ & _ & _ & _ & Ho & _).
    + f_equal. by eapply deleteProduct_throw.
  - destruct (deactivateAccount user w) as [[resp|e] w'] eqn:Hrun; cbn [fst snd].
    + by destruct (deactivateAccount_ok _ _ _ _ Hrun) as (_ & _ & _ & Ho & _).
    + f_equal. by eapply deactivateAccount_throw.
Qed.

(** The status of an order after a request: moved along the table if the
    request is an accepted update of this order, kept otherwise. *)
Lemma serve_status k q w s :
  statusOf (db w) k = Some s →
  ∃ s1, statusOf (db (serve q w).2) k = Some s1
        ∧ if movesOrder k q && served q w then In s1 (adjacency s) else s1 = s.
Proof.
  unfold statusOf. intros Hs. pose proof (serve_orders q w) as Hq. cbn zeta in Hq.
  destruct (orders (db w) !! k) as [r0|] eqn:Ek; [|done].
  cbn in Hs. injection Hs as <-.
  destruct q; cbn [movesOrder andb]; try (rewrite Hq, Ek; by eexists).
  - destruct Hq as [->|(k0 & row & Ek0 & _ & ->)]; [rewrite Ek; by eexists|].
    rewrite lookup_insert_ne by congruence. rewrite Ek. by eexists.
  - destruct (String.eqb_spec k0 k) as [->|Hne]; cbn [andb].
    + destruct (served _ _); [|rewrite Hq, Ek; by eexists].
      destruct Hq as (r & target & t & Er & Et & Hin & ->). simplify_eq.
      rewrite lookup_insert_eq. cbn. rewrite Et. by eexists.
    + destruct (served _ _); [|rewrite Hq, Ek; by eexists].
      destruct Hq as (r & target & t & Er & Et & Hin & ->).
      rewrite lookup_insert_ne by done. rewrite Ek. by eexists.
  - destruct Hq as [->|(r & row & Er & Hst & ->)]; [rewrite Ek; by eexists|].
    destruct (decide (k0 = k)) as [->|Hne].
    + simplify_eq. rewrite lookup_insert_eq. cbn. rewrite Hst. by eexists.
    + rewrite lookup_insert_ne by done. rewrite Ek. by eexists.
Qed.




Lemma terminal_stays k history w s :
  adjacency s = [] →
  statusOf (db w) k = Some s →
  statusOf (db (after history w)) k = Some s.
Proof.
  intros Hterm. revert w. induction history as [|q rest IH]; intros w Hs; [done|].
  cbn. apply IH. destruct (serve_status k q w s Hs) as (s1 & Hs1 & Hmove).
  rewrite Hs1. f_equal. destruct (_ && _); [|done]. by rewrite Hterm in Hmove.
Qed.




(** ** How the handlers compose *)

(** X9. Whoever placed an order can read it back: after a successful
    [createOrder], [getOrder] by the same caller for the key of the response
    answers 200 with the row that was stored, as soon as the store answers
    the read. *)
Theorem creator_reads_back (user : ReqUser) (body : OrderCreate.t) (w w1 : World)
    (resp : Response (option JoinedOrder)) (j : JoinedOrder) :
  createOrder user body w = (Ok resp, w1) →
  payload resp = Some j →
  answers 1 w1 →
  ∃ w2 j', getOrder user (joined_id j) w1 = (Ok (mkResponse 200 j'), w2)
           ∧ joined_id j' = joined_id j
           ∧ joined_row j' = joined_row j.
Proof.
  intros Hrun Hj Hf%answers_hd.
  destruct (createOrder_ok _ _ _ _ _ Hrun) as (P & k & _ & _ & _ & _ & _ & _ & -> & Ho & _).
  cbn in Hj. injection Hj as <-. cbn [joined_id joined_row join].
  assert (orders (db w1) !! k
          = Some (mkRow (orderData user body P) (clock w) (clock w))) as Er.
  { rewrite Ho. apply lookup_insert_eq. }
  run. rewrite Hf, Er. cbn.
  rewrite hasAccess_true; [cbn; by do 2 eexists|].
  right. by left.
Qed.

Lemma creator_reads_back_witness :
  ∃ w2 j', getOrder customerC "o1" world1 = (Ok (mkResponse 200 j'), w2)
           ∧ joined_id j' = "o1" ∧ joined_row j' = row1.
Proof.
  apply (creator_reads_back customerC order3 world0 world1
           (mkResponse 201 (Some (join store0 "o1" row1))) (join store0 "o1" row1)).
  - by vm_compute.
  - reflexivity.
  - by intros [|i] _.
Defined.






(** X12. [assignAgent] checks in a fixed order, before it looks at the
    agent: a caller who is neither customer nor admin gets 403
    INSUFFICIENT_PERMISSIONS without any store call; then an order that is not
    in the store gives 404 ORDER_NOT_FOUND; then a customer who does not own
    the order gets 403 ACCESS_DENIED. Each holds whatever the agent id. *)
Theorem assignAgent_checks_caller_first (user : ReqUser) (k a : string) (w : World) :
  (¬ mayCreate user →
   rejected (assignAgent user k a w) w 0 403 "INSUFFICIENT_PERMISSIONS" PermissionDenied)
  ∧ (mayCreate user → orders (db w) !! k = None →
     rejected (assignAgent user k a w) w 1 404 "ORDER_NOT_FOUND" NotFound)
  ∧ (∀ r, role user = "customer" → answers 1 w → orders (db w) !! k = Some r →
          Order.customer_id (order r) ≠ id user →
          rejected (assignAgent user k a w) w 1 403 "ACCESS_DENIED" AccessDenied).
Proof.
  split; [|split].
  - intros H. apply (not_iff_compat (mayCreate_test user)) in H.
    apply not_false_is_true in H. run. rewrite H. rejected_now.
  - intros H%mayCreate_test Ek. run. rewrite H, Ek. cbn.
    destruct (hd false (faults w)); rejected_now.
  - intros r Hr Hf%answers_hd Er Hne. run. rewrite Hr. cbn. rewrite Hf, Er. cbn.
    destruct (String.eqb_spec (Order.customer_id (order r)) (id user)); [done|].
    rejected_now.
Qed.

Lemma assignAgent_checks_caller_first_witness :
  rejected (assignAgent agentA "o1" "A" world1) world1 0 403
    "INSUFFICIENT_PERMISSIONS" PermissionDenied
  ∧ rejected (assignAgent customerC "o9" "A" world1) world1 1 404
      "ORDER_NOT_FOUND" NotFound
  ∧ rejected (assignAgent strangerS "o1" "A" world1) world1 1 403
      "ACCESS_DENIED" AccessDenied.
Proof.
  destruct (assignAgent_checks_caller_first agentA "o1" "A" world1) as (H1 & _).
  destruct (assignAgent_checks_caller_first customerC "o9" "A" world1) as (_ & H2 & _).
  destruct (assignAgent_checks_caller_first strangerS "o1" "A" world1) as (_ & _ & H3).
  split; [|split].
  - apply H1. by intros [|].
  - apply H2; [by left | reflexivity].
  - by apply (H3 row1); [| intros [|i] _ | |].
Defined.

(** X13. An order the store does not return is answered 404 ORDER_NOT_FOUND
    by [getOrder] and by [updateOrderStatus], after one store call and for
    every caller and request: the order is looked up before the caller's
    rights, and a store that fails to answer the read is reported the same
    way as a missing order. *)
Theorem unknown_order_is_not_found (user : ReqUser) (k : string) (body : OrderUpdate.t)
    (w : World) :
  orders (db w) !! k = None ∨ hd false (faults w) = true →
  rejected (getOrder user k w) w 1 404 "ORDER_NOT_FOUND" NotFound
  ∧ rejected (updateOrderStatus user k body w) w 1 404 "ORDER_NOT_FOUND" NotFound.
Proof.
  intros [Ek|Hf]; split; run; rewrite ?Ek, ?Hf; cbn;
    try destruct (hd false (faults w)); rejected_now.
Qed.

Lemma unknown_order_is_not_found_witness :
  rejected (getOrder adminZ "o9" world1) world1 1 404 "ORDER_NOT_FOUND" NotFound
  ∧ rejected (updateOrderStatus adminZ "o9" toConfirmed world1) world1 1 404
      "ORDER_NOT_FOUND" NotFound.
Proof.
  apply (unknown_order_is_not_found _ "o9" _ world1). by left.
Defined.

(** ** The pages of [getMyOrders] *)







Lemma Sorted_drop {A} (R : relation A) n l : Sorted R l → Sorted R (drop n l).
Proof.
  revert l. induction n as [|n IH]; intros [|x l] H; cbn; try done.
  apply IH. by apply Sorted_inv in H as [? _].
Qed.

Lemma Sorted_take {A} (R : relation A) n l : Sorted R l → Sorted R (take n l).
Proof.
  revert n. induction l as [|x l IH]; intros [|n] H; cbn; try by constructor.
  apply Sorted_inv in H as [Hl Hx]. constructor; [by apply IH|].
  destruct n, l; cbn; try by constructor.
  constructor. by inversion Hx.
Qed.

Lemma sortRel_total field ascending : Total (sortRel field ascending).
Proof.
  assert (∀ a b, sortLe field a b = true ∨ sortLe field b a = true) as Hle.
  { intros a b. unfold sortLe.
    destruct (String.eqb field "total_price").
    { rewrite !bool_decide_eq_true.
      destruct (Qclt_le_dec (Order.total_price (order (joined_row a)))
                  (Order.total_price (order (joined_row b)))) as [?%Qclt_le_weak|?]; tauto. }
    destruct (String.eqb field "status"); [apply String.leb_total|].
    destruct (String.eqb field "updated_at"); rewrite !bool_decide_eq_true; lia. }
  intros a b. unfold sortRel.
  destruct ascending, (Hle a b) as [H|H]; rewrite H; cbn; tauto.
Qed.

(** X15. Every page [getMyOrders] returns is in the order asked for: its
    rows are sorted on the sort column of the request, ascending only for
    [sort_order=asc]; a sort column that is not one of created_at,
    updated_at, total_price and status counts as created_at, so that a plain
    request lists the newest order first. *)
Theorem getMyOrders_rows_sorted (user : ReqUser) (params : ListQuery.t) (w w' : World)
    (rows : list JoinedOrder) :
  getMyOrders user params w = (Ok (mkResponse 200 (Some rows)), w') →
  Sorted (sortRel (sortFieldOf params) (ascendingOf params)) rows.
Proof.
  intros Hrun.
  destruct (getMyOrders_ok _ _ _ _ _ Hrun) as (_ & _ & _ & Hr & _).
  destruct (roleScope_known user w Hr) as (q & Hq & _).
  unfold getMyOrders, bind in Hrun. rewrite Hq in Hrun. run.
  destruct (hd false (faults w)); cbn in Hrun; [done|].
  destruct (windowed _ _) as [[rows'|] []] eqn:Hw; cbn in Hrun; try done.
  simplify_eq.
  unfold windowed, found, failed in Hw. cbn in Hw.
  destruct (_ <? 0); [done|]. simplify_eq.
  apply Sorted_take, Sorted_drop. unfold sorted. cbn.
  apply (@Sorted_merge_sort _ _ _ (sortRel_total _ _)).
Qed.

Lemma getMyOrders_rows_sorted_witness :
  Sorted (sortRel "created_at" false) page21.
Proof.
  apply (getMyOrders_rows_sorted customerC noParams world21 world21). by vm_compute.
Defined.

(** ** The agents of a district *)

Lemma truthy_inv v s : truthy v = Some s → v = Some s ∧ s ≠ "".
Proof.
  destruct v as [t|]; cbn; [|done].
  destruct (String.eqb_spec t ""); [done|]. intros. by simplify_eq.
Qed.

Lemma filter_sublist {A} (f : A → bool) l : sublist (List.filter f l) l.
Proof.
  induction l as [|x l IH]; cbn; [constructor|].
  destruct (f x); by constructor.
Qed.

Lemma getAvailableAgents_ok nameOf district w resp w' :
  getAvailableAgents nameOf district w = (Ok resp, w') →
  ∃ d rows,
    truthy district = Some d
    ∧ resp = mkResponse 200 (Some rows)
    ∧ NoDup rows.*1
    ∧ ∀ a A, (a, A) ∈ rows
             ↔ users (db w) !! a = Some A ∧ User.role A = "agent"
               ∧ User.district_id A = Some d ∧ User.is_active A = true.
Proof.
  intros Hrun. run'.
  destruct (truthy district) as [d|] eqn:Hd; cbn in Hrun; [|done].
  destruct (hd false (faults w)); cbn in Hrun; [done|].
  simplify_eq. do 2 eexists. split; [done|]. split; [done|]. split.
  - rewrite merge_sort_Permutation.
    eapply sublist_NoDup; [|apply fmap_sublist, filter_sublist].
    apply NoDup_fst_map_to_list.
  - intros a A.
    rewrite merge_sort_Permutation, list_elem_of_In, filter_In, <- list_elem_of_In,
      elem_of_map_to_list.
    unfold isAgentOf. cbn.
    rewrite !andb_true_iff, String.eqb_eq, bool_decide_eq_true. tauto.
Qed.

Lemma getAvailableAgents_succeeds nameOf district d w :
  truthy district = Some d → answers 1 w →
  ∃ rows w', getAvailableAgents nameOf district w = (Ok (mkResponse 200 (Some rows)), w').
Proof.
  intros Hd Hf%answers_hd. run'. rewrite Hd. cbn. rewrite Hf. cbn. eauto.
Qed.

(** X16. [getAvailableAgents] without a district, or with an empty one,
    is refused with 400 DISTRICT_REQUIRED before any store call. With a
    district, and a store that answers, it lists each active user of role
    agent of that district once, and nobody else. *)
Theorem getAvailableAgents_lists_active_agents (nameOf : string → string)
    (district_id : option string) (w : World) :
  (truthy district_id = None →
   refused (getAvailableAgents nameOf district_id w) w 0 400 "DISTRICT_REQUIRED")
  ∧ (∀ d, truthy district_id = Some d → answers 1 w →
       ∃ rows w',
         getAvailableAgents nameOf district_id w = (Ok (mkResponse 200 (Some rows)), w')
         ∧ NoDup rows.*1
         ∧ ∀ a A, (a, A) ∈ rows
                  ↔ users (db w) !! a = Some A ∧ User.role A = "agent"
                    ∧ User.district_id A = Some d ∧ User.is_active A = true).
Proof.
  split.
  - intros Hd. run'. rewrite Hd. rejected_now.
  - intros d Hd Hf.
    destruct (getAvailableAgents_succeeds nameOf _ _ _ Hd Hf) as (rows & w' & Hrun).
    destruct (getAvailableAgents_ok _ _ _ _ _ Hrun) as (d' & rows' & Hd' & ? & Hno & Hrows).
    simplify_eq. eauto.
Qed.

Lemma getAvailableAgents_lists_active_agents_witness :
  refused (getAvailableAgents nameOf0 (Some "") world0) world0 0 400 "DISTRICT_REQUIRED"
  ∧ ∃ rows w',
      getAvailableAgents nameOf0 (Some D1) world0 = (Ok (mkResponse 200 (Some rows)), w')
      ∧ NoDup rows.*1
      ∧ ∀ a A, (a, A) ∈ rows
               ↔ users (db world0) !! a = Some A ∧ User.role A = "agent"
                 ∧ User.district_id A = Some D1 ∧ User.is_active A = true.
Proof.
  destruct (getAvailableAgents_lists_active_agents nameOf0 (Some "") world0) as [H1 _].
  destruct (getAvailableAgents_lists_active_agents nameOf0 (Some D1) world0) as [_ H2].
  split; [by apply H1|]. apply H2; [done|]. by intros [|i] _.
Defined.

(** X17. The agents listed for the district of an order's product are the
    agents that can be assigned to the order: for an order of the store, a
    caller who may assign and a store that answers, [assignAgent] succeeds
    with an agent id exactly when [getAvailableAgents] lists it for the
    district of the product. *)
Theorem listed_agents_are_the_assignable_ones (nameOf : string → string)
    (user : ReqUser) (k a : string) (w w1 : World) (r : OrderRow) (P : Product.t)
    (rows : list (string * User.t)) :
  orders (db w) !! k = Some r →
  products (db w) !! Order.product_id (order r) = Some P →
  mayAssign user (order r) →
  answers 3 w →
  getAvailableAgents nameOf (Some (Product.district_id P)) w
  = (Ok (mkResponse 200 (Some rows)), w1) →
  a ∈ rows.*1 ↔ ∃ resp w2, assignAgent user k a w = (Ok resp, w2).
Proof.
  intros Er EP Hmay Hf Hrun.
  destruct (getAvailableAgents_ok _ _ _ _ _ Hrun) as (d & rows' & Hd & ? & _ & Hrows).
  apply truthy_inv in Hd as [Hd _]. simplify_eq. split.
  - intros ([a' A] & -> & HaA)%list_elem_of_fmap. cbn.
    apply Hrows in HaA as (EA & Hrole & Hdist & Hact).
    destruct (assignAgent_assigns user k a' w r P A) as [w2 Hrun2]; eauto.
    by repeat split.
  - intros (resp & w2 & Hrun2).
    destruct (assignAgent_ok _ _ _ _ _ _ Hrun2)
      as (r' & P' & A & Er' & EP' & _ & (EA & Hrole & Hact) & Hdist & _).
    simplify_eq. apply list_elem_of_fmap. exists (a, A). split; [done|].
    by apply Hrows.
Qed.

Lemma listed_agents_are_the_assignable_ones_witness :
  ∃ rows : list (string * User.t), rows.*1 = ["A"; "A2"]
          ∧ ("A2" ∈ rows.*1
             ↔ ∃ resp w2, assignAgent customerC "o1" "A2" world1 = (Ok resp, w2)).
Proof.
  eexists. split; cycle 1.
  - eapply (listed_agents_are_the_assignable_ones nameOf0 customerC "o1" "A2" world1 _
              row1 productP7).
    + by vm_compute.
    + by vm_compute.
    + right. by split.
    + by intros [|[|[|i]]] _.
    + by vm_compute.
  - by vm_compute.
Defined.

(** ** Authentication *)

Lemma substring_all t : String.substring 0 (String.length t) t = t.
Proof. induction t as [|c t IH]; cbn; [done|]. by rewrite IH. Qed.

Lemma prefix_split p h :
  String.prefix p h = true →
  h = (p ++ String.substring (String.length p) (String.length h - String.length p) h)%string.
Proof.
  revert h. induction p as [|c p IH]; intros h Hp; cbn.
  - by rewrite Nat.sub_0_r, substring_all.
  - destruct h as [|c' h]; cbn in *; [done|].
    destruct (Ascii.ascii_dec c c') as [->|]; [|done].
    change (String c' p +:+ ?x) with (String c' (p +:+ x)).
    f_equal. by apply IH.
Qed.

Lemma prefix_app p t : String.prefix p (p ++ t) = true.
Proof.
  induction p as [|c p IH]; [by destruct t|].
  change (String c p +:+ t) with (String c (p +:+ t)). cbn.
  by destruct (Ascii.ascii_dec c c).
Qed.

Lemma substring_app p t :
  String.substring (String.length p) (String.length (p ++ t) - String.length p) (p ++ t) = t.
Proof.
  induction p as [|c p IH].
  - change ("" +:+ t) with t. cbn. by rewrite Nat.sub_0_r, substring_all.
  - change (String c p +:+ t) with (String c (p +:+ t)). cbn. exact IH.
Qed.

Lemma bearer_prefix t : String.prefix "Bearer " ("Bearer " ++ t) = true.
Proof. apply prefix_app. Qed.

Lemma bearer_token t :
  String.substring 7 (String.length ("Bearer " ++ t) - 7) ("Bearer " ++ t) = t.
Proof. exact (substring_app "Bearer " t). Qed.

Lemma authenticateUser_ok getUser auth w u w' :
  authenticateUser getUser auth w = (Ok u, w') →
  ∃ token U,
    auth = Some ("Bearer " ++ token)%string
    ∧ getUser token = Some (id u)
    ∧ users (db w) !! id u = Some U
    ∧ User.is_active U = true
    ∧ role u = User.role U
    ∧ db w' = db w ∧ console w' = console w
    ∧ faults w' = tl (faults w).
Proof.
  intros Hrun. unfold authenticateUser in Hrun.
  destruct auth as [h|]; [|done].
  destruct (String.prefix "Bearer " h) eqn:Hp; [|done].
  destruct (getUser _) as [uid|] eqn:Hg; [|done].
  run'. destruct (hd false (faults w)); cbn in Hrun; [done|].
  destruct (users (db w) !! uid) as [U|] eqn:EU; cbn in Hrun; [|done].
  destruct (User.is_active U) eqn:HU; cbn in Hrun; [|done].
  simplify_eq. eexists _, U. split; [f_equal; exact (prefix_split _ _ Hp)|]. done.
Qed.

Lemma authenticateUser_passes getUser token uid U w :
  getUser token = Some uid →
  users (db w) !! uid = Some U →
  User.is_active U = true →
  answers 1 w →
  ∃ w', authenticateUser getUser (Some ("Bearer " ++ token)%string) w
        = (Ok (mkReqUser uid (User.role U)), w').
Proof.
  intros Hg EU HU Hf%answers_hd. unfold authenticateUser.
  rewrite bearer_prefix, bearer_token, Hg. run'. rewrite Hf, EU. cbn. rewrite HU. cbn.
  eauto.
Qed.

(** X18. A request passes [authenticateUser] only with a header
    [Bearer <token>] whose token the identity provider resolves to a user
    that is in the users table and active; the user attached to the request
    has the id and the role of that row, and nothing is written. Conversely
    such a header passes whenever the store answers. *)
Theorem authenticated_user_is_an_active_row (getUser : string → option string)
    (authorization : option string) (w : World) :
  (∀ u w', authenticateUser getUser authorization w = (Ok u, w') →
     ∃ token U,
       authorization = Some ("Bearer " ++ token)%string
       ∧ getUser token = Some (id u)
       ∧ users (db w) !! id u = Some U
       ∧ User.is_active U = true
       ∧ role u = User.role U
       ∧ db w' = db w ∧ console w' = console w)
  ∧ (∀ token uid U,
       authorization = Some ("Bearer " ++ token)%string →
       getUser token = Some uid →
       users (db w) !! uid = Some U →
       User.is_active U = true →
       answers 1 w →
       ∃ w', authenticateUser getUser authorization w
             = (Ok (mkReqUser uid (User.role U)), w')).
Proof.
  split.
  - intros u w' Hrun.
    destruct (authenticateUser_ok _ _ _ _ _ Hrun) as (token & U & ? & ? & ? & ? & ? & ? & ? & _).
    by exists token, U.
  - intros token uid U -> Hg EU HU Hf. by eapply authenticateUser_passes.
Qed.

Lemma authenticated_user_is_an_active_row_witness :
  ∃ w', authenticateUser getUser0 (Some "Bearer tokenC") world1 = (Ok customerC, w').
Proof.
  destruct (authenticated_user_is_an_active_row getUser0 (Some "Bearer tokenC") world1)
    as [_ H].
  by apply (H "tokenC" "C" (User.mk "customer" (Some D1) true)); [| | | |intros [|i] _].
Defined.

(** X19. An order placed through [POST /api/v1/orders] belongs to an
    active customer or admin: when the authenticated route answers, the
    customer of the stored order is the user the identity provider resolves
    the bearer token to, that user's row is active and its role is customer or
    admin. *)
Theorem posted_order_belongs_to_active_customer (getUser : string → option string)
    (authorization : option string) (body : OrderCreate.t) (w w' : World)
    (resp : Response (option JoinedOrder)) :
  ordersPost getUser authorization body w = (Ok resp, w') →
  ∃ token U k r,
    authorization = Some ("Bearer " ++ token)%string
    ∧ getUser token = Some (Order.customer_id (order r))
    ∧ users (db w) !! Order.customer_id (order r) = Some U
    ∧ User.is_active U = true
    ∧ (User.role U = "customer" ∨ User.role U = "admin")
    ∧ resp = mkResponse 201 (Some (join (db w) k r))
    ∧ orders (db w) !! k = None
    ∧ orders (db w') !! k = Some r.
Proof.
  intros Hrun. unfold ordersPost, bind in Hrun.
  destruct (authenticateUser getUser authorization w) as [[u|e] w1] eqn:Ha; [|done].
  destruct (authenticateUser_ok _ _ _ _ _ Ha)
    as (token & U & -> & Hg & EU & HU & Hrole & Hdb & _).
  unfold postOrder, requireCustomerAccess, requireRole, when, bind, ret, throw in Hrun.
  destruct (negb (includes _ _)); [done|].
  destruct (createOrder_ok _ _ _ _ _ Hrun)
    as (P & k & Hmay & _ & _ & _ & _ & Hk & -> & Ho & _).
  rewrite Hdb in *. unfold mayCreate in Hmay. rewrite Hrole in Hmay.
  exists token, U, k. eexists. repeat split; try done.
  by rewrite Ho, lookup_insert_eq.
Qed.

Lemma posted_order_belongs_to_active_customer_witness :
  ∃ token U k r,
    Some "Bearer tokenC" = Some ("Bearer " ++ token)%string
    ∧ getUser0 token = Some (Order.customer_id (order r))
    ∧ users (db world0) !! Order.customer_id (order r) = Some U
    ∧ User.is_active U = true
    ∧ (User.role U = "customer" ∨ User.role U = "admin")
    ∧ mkResponse 201 (Some (join store0 "o1" row1)) = mkResponse 201 (Some (join (db world0) k r))
    ∧ orders (db world0) !! k = None
    ∧ orders (db world1) !! k = Some r.
Proof.
  apply (posted_order_belongs_to_active_customer getUser0 (Some "Bearer tokenC") order3).
  by vm_compute.
Defined.

(** ** Accounts and products that are switched off *)

(** X20. An account that was deactivated is locked out and can no longer
    be given orders: after a successful [deactivateAccount] of a user of the
    users table, [authenticateUser] refuses the user's token with 403
    ACCOUNT_INACTIVE, and [assignAgent] with the user's id is rejected with 404
    AGENT_NOT_FOUND; the orders of the store are as they were, so that orders
    already assigned to the user stay assigned. *)
Theorem deactivated_account_is_locked_out (user : ReqUser) (w w1 : World)
    (resp : Response unit) (U : User.t) :
  deactivateAccount user w = (Ok resp, w1) →
  users (db w) !! id user = Some U →
  answers 1 w1 →
  orders (db w1) = orders (db w)
  ∧ (∀ getUser token, getUser token = Some (id user) →
       refused (authenticateUser getUser (Some ("Bearer " ++ token)%string) w1) w1 1
         403 "ACCOUNT_INACTIVE")
  ∧ (∀ u k r, orders (db w1) !! k = Some r → mayAssign u (order r) →
       rejected (assignAgent u k (id user) w1) w1 2 404 "AGENT_NOT_FOUND" NotFound).
Proof.
  intros Hrun EU Hf.
  destruct (deactivateAccount_ok _ _ _ _ Hrun) as (_ & Hu & _ & Ho & _).
  assert (users (db w1) !! id user = Some (inactive U)) as EU1.
  { by rewrite Hu, lookup_alter_eq, EU. }
  split; [done|]. split.
  - intros getUser token Hg. unfold authenticateUser.
    rewrite bearer_prefix, bearer_token, Hg. run'.
    rewrite (answers_hd _ _ Hf), EU1. rejected_now.
  - intros u k r Er Hmay. apply (assignAgent_no_agent u k _ w1 r); try done.
    intros (A & EA & _ & HA). rewrite EU1 in EA. by simplify_eq.
Qed.

Lemma deactivated_account_is_locked_out_witness :
  orders (db world1_A_left) = orders (db world1)
  ∧ refused (authenticateUser getUser0 (Some "Bearer tokenA") world1_A_left)
      world1_A_left 1 403 "ACCOUNT_INACTIVE"
  ∧ rejected (assignAgent customerC "o1" "A" world1_A_left) world1_A_left 2 404
      "AGENT_NOT_FOUND" NotFound.
Proof.
  destruct (deactivated_account_is_locked_out agentA world1 world1_A_left
              (mkResponse 200 tt) (User.mk "agent" (Some D1) true))
    as (H1 & H2 & H3); [by vm_compute | by vm_compute | by intros [|i] _ |].
  split; [exact H1|]. split.
  - by apply (H2 getUser0 "tokenA").
  - apply (H3 customerC "o1" row1); [by vm_compute|]. right. by split.
Defined.

(** X21. A product that was deleted can no longer be ordered, and the
    orders placed for it stay: [deleteProduct] succeeds only for an admin or
    the farmer of the product; afterwards every [createOrder] for the product
    is rejected with 404 PRODUCT_NOT_FOUND, whoever asks and whatever the
    quantity, while the orders of the store are as they were. *)
Theorem deleted_product_cannot_be_ordered (user : ReqUser) (k : string) (w w1 : World)
    (resp : Response unit) :
  deleteProduct user k w = (Ok resp, w1) →
  (role user = "admin"
   ∨ ∃ P, products (db w) !! k = Some P ∧ Product.farmer_id P = id user)
  ∧ orders (db w1) = orders (db w)
  ∧ ∀ u body, mayCreate u → OrderCreate.product_id body = k →
      rejected (createOrder u body w1) w1 1 404 "PRODUCT_NOT_FOUND" NotFound.
Proof.
  intros Hrun.
  destruct (deleteProduct_ok _ _ _ _ _ Hrun) as (P & EP & Hown & _ & Hp & Ho & _).
  split; [destruct Hown; eauto|]. split; [done|].
  intros u body Hu <-. apply createOrder_no_product; [done|].
  intros (P' & EP' & HP'). rewrite Hp, lookup_alter_eq, EP in EP'.
  cbn in EP'. by simplify_eq.
Qed.

Lemma deleted_product_cannot_be_ordered_witness :
  orders (db world1_P_deleted) = orders (db world1)
  ∧ rejected (createOrder customerC order3 world1_P_deleted) world1_P_deleted 1 404
      "PRODUCT_NOT_FOUND" NotFound.
Proof.
  destruct (deleted_product_cannot_be_ordered farmerF "P" world1 world1_P_deleted
              (mkResponse 200 tt)) as (_ & H1 & H2); [by vm_compute|].
  split; [exact H1|]. apply H2; [by left | done].
Defined.

(** X22. Deleting an order is for admins, and it does not give the
    quantity back: [DELETE /admin/orders/:id] by another role is refused with
    403 INSUFFICIENT_PERMISSIONS before any store call; by an admin, when the
    store answers, it answers 200 whether or not the order exists, removes
    that order and no other, leaves the products with their stock, and
    [getOrder] for the key answers 404 ORDER_NOT_FOUND afterwards. *)
Theorem adminDeleteOrder_removes_one_order (user : ReqUser) (k : string) (w : World) :
  (role user ≠ "admin" →
   rejected (adminDeleteOrder user k w) w 0 403 "INSUFFICIENT_PERMISSIONS" PermissionDenied)
  ∧ (role user = "admin" → answers 1 w →
     ∃ w1, adminDeleteOrder user k w = (Ok (mkResponse 200 tt), w1)
           ∧ orders (db w1) = delete k (orders (db w))
           ∧ products (db w1) = products (db w)
           ∧ users (db w1) = users (db w)
           ∧ ∀ u, rejected (getOrder u k w1) w1 1 404 "ORDER_NOT_FOUND" NotFound).
Proof.
  split.
  - intros Hr. unfold adminDeleteOrder. run'. unfold includes. cbn.
    destruct (String.eqb_spec (role user) "admin"); [done|]. rejected_now.
  - intros Hr Hf%answers_hd. unfold adminDeleteOrder. run'. unfold includes.
    rewrite Hr. cbn. rewrite Hf. cbn.
    eexists. repeat split. intros u. run. cbn. rewrite lookup_delete_eq. cbn.
    destruct (hd false (tl (faults w))); rejected_now.
Qed.

Lemma adminDeleteOrder_removes_one_order_witness :
  rejected (adminDeleteOrder customerC "o1" world1) world1 0 403
    "INSUFFICIENT_PERMISSIONS" PermissionDenied
  ∧ ∃ w1, adminDeleteOrder adminZ "o1" world1 = (Ok (mkResponse 200 tt), w1)
          ∧ orders (db w1) = delete "o1" (orders (db world1))
          ∧ products (db w1) = products (db world1)
          ∧ users (db w1) = users (db world1)
          ∧ ∀ u, rejected (getOrder u "o1" w1) w1 1 404 "ORDER_NOT_FOUND" NotFound.
Proof.
  destruct (adminDeleteOrder_removes_one_order customerC "o1" world1) as [H1 _].
  destruct (adminDeleteOrder_removes_one_order adminZ "o1" world1) as [_ H2].
  split; [by apply H1|]. apply H2; [done|]. by intros [|i] _.
Defined.

(** ** Errors on their way to the client *)

(** X23. No error of a handler is taken for something else by
    [errorHandler]: whenever one of the requests of the model throws, the
    response has the status and the code the handler gave its error (500
    INTERNAL_SERVER_ERROR for a TypeError); none is caught by the branches
    for store constraint codes, validation, tokens or uploads, which come
    first. The status is 400, 403, 404 or 500. *)
Theorem handler_errors_reach_the_client (q : Request) (w : World) (e : Exn) :
  (serve q w).1 = Throw e →
  errorResponse (thrown e) = errorHandler e
  ∧ (errorHandler e).1 ∈ [400; 403; 404; 500]%nat.
Proof.
  assert (∀ (st : nat), st = 400%nat ∨ st = 403%nat ∨ st = 404%nat ∨ st = 500%nat →
                        st ∈ [400; 403; 404; 500]%nat) as Hst.
  { intros st. rewrite !elem_of_cons. tauto. }
  destruct q; cbn [serve]; rewrite void_run; intros Hrun.
  - destruct (createOrder user body w) as [[resp|e'] w'] eqn:Hq; cbn in Hrun; [done|].
    simplify_eq. run. crush Hq; (split; [done|apply Hst; tauto]).
  - destruct (getMyOrders user params w) as [[resp|e'] w'] eqn:Hq; cbn in Hrun; [done|].
    simplify_eq. run. unfold roleScope, ret, throw in Hq.
    destruct (String.eqb (role user) "customer"), (String.eqb (role user) "agent"),
      (String.eqb (role user) "farmer"), (String.eqb (role user) "admin");
      cbn in Hq;
      repeat match type of Hq with
             | context [windowed ?q ?l] => destruct (windowed q l) as [? []]
             | context [hd false ?l] => destruct (hd false l)
             end; cbn in Hq; simplify_eq; (split; [done|apply Hst; tauto]).
  - destruct (getOrder user k w) as [[resp|e'] w'] eqn:Hq; cbn in Hrun; [done|].
    simplify_eq. run. unfold hasAccess, ret, throw in Hq.
    crush Hq; (split; [done|apply Hst; tauto]).
  - destruct (updateOrderStatus user k body w) as [[resp|e'] w'] eqn:Hq; cbn in Hrun;
      [done|].
    simplify_eq. run. unfold canUpdate, ret, throw in Hq.
    crush Hq; (split; [done|apply Hst; tauto]).
  - destruct (assignAgent user k agent_id w) as [[resp|e'] w'] eqn:Hq; cbn in Hrun;
      [done|].
    simplify_eq. run. crush Hq; (split; [done|apply Hst; tauto]).
  - destruct (getAvailableAgents nameOf district_id w) as [[resp|e'] w'] eqn:Hq;
      cbn in Hrun; [done|].
    simplify_eq. run'. crush Hq; (split; [done|apply Hst; tauto]).
  - destruct (deleteProduct user k w) as [[resp|e'] w'] eqn:Hq; cbn in Hrun; [done|].
    simplify_eq. run'. crush Hq; (split; [done|apply Hst; tauto]).
  - destruct (deactivateAccount user w) as [[resp|e'] w'] eqn:Hq; cbn in Hrun; [done|].
    simplify_eq. run'. crush Hq; (split; [done|apply Hst; tauto]).
Qed.

Lemma handler_errors_reach_the_client_witness :
  errorResponse (thrown (AppError "Order not found" 404 "ORDER_NOT_FOUND"))
  = (404%nat, "ORDER_NOT_FOUND")
  ∧ 404%nat ∈ [400; 403; 404; 500]%nat.
Proof.
  apply (handler_errors_reach_the_client (Get customerC "o9") world1). by vm_compute.
Defined.

(** ** The routes and their guards *)

Lemma sameAnswer_refl {A} (r : Result A * World) : sameAnswer r r.
Proof. split; [done|]. by destruct r.1. Qed.

(** X24. The role guards of [POST /orders] and [PUT /orders/:id/assign-agent]
    change no answer: for every caller, and a body that passes the schema
    validation, the guarded route ends in the same world as its handler
    called directly, with the same response or an error of the same status
    and code. The guard of [PUT /orders/:id/status] does:
    a caller who is not agent, admin or farmer is refused with 403
    INSUFFICIENT_PERMISSIONS before the order is looked up, also for an order
    that does not exist; the other callers get the answer of the handler. *)
Theorem route_guards (user : ReqUser) (k a : string) (body : OrderCreate.t)
    (patch : OrderUpdate.t) (w : World) :
  sameAnswer (postOrder user body w) (createOrder user body w)
  ∧ sameAnswer (putAssignAgent user k a w) (assignAgent user k a w)
  ∧ (role user ∉ ["agent"; "admin"; "farmer"] →
     rejected (putOrderStatus user k patch w) w 0 403
       "INSUFFICIENT_PERMISSIONS" PermissionDenied)
  ∧ (role user ∈ ["agent"; "admin"; "farmer"] →
     putOrderStatus user k patch w = updateOrderStatus user k patch w).
Proof.
  unfold postOrder, putAssignAgent, putOrderStatus, requireCustomerAccess, requireRole,
    includes, when, bind, ret, throw. cbn [existsb].
  rewrite !elem_of_cons, elem_of_nil.
  destruct (String.eqb_spec (role user) "customer") as [Hc|Hc];
    destruct (String.eqb_spec (role user) "admin") as [Had|Had];
    destruct (String.eqb_spec (role user) "agent") as [Hag|Hag];
    destruct (String.eqb_spec (role user) "farmer") as [Hfa|Hfa];
    try congruence; cbn [orb negb].
  all: repeat split; try apply sameAnswer_refl; try tauto; try rejected_now.
  all: try (by destruct (updateOrderStatus user k patch w)).
  all: try (by destruct (createOrder user body w)).
  all: try (by destruct (assignAgent user k a w)).
  all: run; destruct (String.eqb_spec (role user) "customer"); try done;
    destruct (String.eqb_spec (role user) "admin"); try done.
Qed.

Lemma route_guards_witness :
  rejected (putOrderStatus customerC "o9" toConfirmed world1) world1 0 403
    "INSUFFICIENT_PERMISSIONS" PermissionDenied
  ∧ putOrderStatus agentA "o1" toConfirmed world2
    = updateOrderStatus agentA "o1" toConfirmed world2.
Proof.
  destruct (route_guards customerC "o9" "A" order3 toConfirmed world1) as (_ & _ & H3 & _).
  destruct (route_guards agentA "o1" "A" order3 toConfirmed world2) as (_ & _ & _ & H4).
  split.
  - apply H3. cbn. rewrite !elem_of_cons, elem_of_nil. by intros [|[|[|]]].
  - apply H4. cbn. rewrite !elem_of_cons. tauto.
Defined.

(** ** Final statuses, and reading what was listed *)

(** X25. Delivered and cancelled are final: an order in one of these
    statuses has the same status after any history of requests of the order
    routes, soft deletes of products and deactivations of accounts; in
    particular none of them removes the order. *)
Theorem final_status_is_final (k s : string) (history : list Request) (w : World) :
  s = "delivered" ∨ s = "cancelled" →
  statusOf (db w) k = Some s →
  statusOf (db (after history w)) k = Some s.
Proof.
  intros Hs Hk. apply terminal_stays; [|done]. by destruct Hs as [->| ->].
Qed.

Lemma final_status_is_final_witness :
  statusOf (db (after afterDelivery world6)) "o1" = Some "delivered".
Proof.
  apply final_status_is_final; [by left | by vm_compute].
Defined.


